(** * Xpenseit: field normalisation, currency conversion and report totals

    A shallow embedding of the pure parts of the expense-report program
    ([services/currency.py], [services/openai_vision.py],
    [services/report_pdf.py], [ui/components.py], [models.py]) and the
    properties of them stated by the specification.

    Conventions of the embedding.
    - Python [float] is IEEE binary64: Rocq's primitive [float].
    - Python [str] is [string]; a character is a code point below 256
      (ASCII and the Latin-1 supplement).
    - A call that can raise returns [res]: [Ok v] or [Raise e].
    - [None] is [None] of [option].
    - A [dict] of rates is a [gmap string float].
    - A data frame is the list of its rows, a column the list of its
      cells.
    - What the program asks of a remote service or of the drawing
      library (the exchange rates, the answer of the vision model, the
      markup parser, the drawing of the document) is a parameter of
      the function that asks for it. *)

From Stdlib Require Import ZArith NArith Bool Ascii String List Lia.
From Stdlib Require Import Sorting.Sorted Sorting.Permutation.
From Stdlib Require Import Numbers.DecimalString.
From Stdlib Require Import Floats.PrimFloat Floats.SpecFloat Floats.FloatOps Floats.FloatAxioms.
From stdpp Require Import gmap strings.

Set Warnings "-inexact-float".

Local Open Scope Z_scope.
Local Open Scope bool_scope.

(** ** The fragment of the Python runtime the program relies on *)

Module Py.

(** Exceptions the modelled code can raise; [OtherError] is any other
    exception a library call may raise, by the name of its class. *)
Inductive exn : Type :=
  | ValueError
  | ZeroDivisionError
  | KeyError
  | AttributeError
  | OtherError (name : string).

(** Outcome of a call: a value, or an exception that propagates. *)
Inductive res (A : Type) : Type :=
  | Ok (a : A)
  | Raise (e : exn).
Arguments Ok {A} a.
Arguments Raise {A} e.

Definition bind {A B : Type} (r : res A) (k : A -> res B) : res B :=
  match r with
  | Ok a => k a
  | Raise e => Raise e
  end.

(** [try: body / except Exception: handler]. *)
Definition try_except {A : Type} (body : res A) (handler : res A) : res A :=
  match body with
  | Ok a => Ok a
  | Raise _ => handler
  end.

(** *** Characters *)

Definition ord (c : ascii) : N := N_of_ascii c.

Definition in_range (lo hi n : N) : bool := ((lo <=? n) && (n <=? hi))%N.

(** [str.isspace] on one character: the ASCII white space, the four
    separators U+001C..U+001F, NEL (U+0085) and the no-break space
    (U+00A0). *)
Definition isspace (c : ascii) : bool :=
  in_range 9 13 (ord c) || in_range 28 32 (ord c)
  || (ord c =? 133)%N || (ord c =? 160)%N.

(** A decimal digit (category Nd): what [int] and [float] read. *)
Definition isdecimal (c : ascii) : bool := in_range 48 57 (ord c).

(** [str.isdigit] on one character: the decimal digits and the
    superscript digits U+00B2, U+00B3, U+00B9, which are digits for
    [isdigit] and are not decimal. *)
Definition isdigit_char (c : ascii) : bool :=
  isdecimal c || (ord c =? 178)%N || (ord c =? 179)%N || (ord c =? 185)%N.

Definition digit_val (c : ascii) : option Z :=
  if isdecimal c then Some (Z.of_N (ord c) - 48) else None.

(** [str.upper] on one character.  The sharp s becomes two letters.
    The capitals of U+00B5 and U+00FF lie above U+00FF; those two
    characters are kept as they are. *)
Definition upper_char (c : ascii) : string :=
  if in_range 97 122 (ord c)
     || (in_range 224 254 (ord c) && negb (ord c =? 247)%N)
  then String (ascii_of_N (ord c - 32)) EmptyString
  else if (ord c =? 223)%N then "SS"
  else String c EmptyString.

(** *** Strings *)

Fixpoint upper (s : string) : string :=
  match s with
  | EmptyString => EmptyString
  | String c t => upper_char c +:+ upper t
  end.

Fixpoint lstrip (s : string) : string :=
  match s with
  | EmptyString => EmptyString
  | String c t => if isspace c then lstrip t else s
  end.

Fixpoint rstrip (s : string) : string :=
  match s with
  | EmptyString => EmptyString
  | String c t =>
      match rstrip t with
      | EmptyString => if isspace c then EmptyString else String c EmptyString
      | t' => String c t'
      end
  end.

(** [s.strip()]. *)
Definition strip (s : string) : string := rstrip (lstrip s).

(** [s.split(sep)] for a one-character separator: never an empty list. *)
Fixpoint split (sep : ascii) (s : string) : list string :=
  match s with
  | EmptyString => [EmptyString]
  | String c t =>
      if Ascii.eqb c sep then EmptyString :: split sep t
      else match split sep t with
           | p :: ps => String c p :: ps
           | [] => [String c EmptyString]
           end
  end.

(** [s.replace(c, "")]. *)
Fixpoint remove_char (c : ascii) (s : string) : string :=
  match s with
  | EmptyString => EmptyString
  | String a t => if Ascii.eqb a c then remove_char c t else String a (remove_char c t)
  end.

Fixpoint all_chars (p : ascii -> bool) (s : string) : bool :=
  match s with
  | EmptyString => true
  | String c t => p c && all_chars p t
  end.

(** [s.isdigit()]: false on the empty string. *)
Definition isdigit (s : string) : bool :=
  match s with
  | EmptyString => false
  | _ => all_chars isdigit_char s
  end.

Definition isdecimal_str (s : string) : bool :=
  match s with
  | EmptyString => false
  | _ => all_chars isdecimal s
  end.

(** *** Integers *)

(** White space for [int] and [float]: unlike [str.strip], the
    separators U+001C..U+001F do not count. *)
Definition isspace_num (c : ascii) : bool :=
  in_range 9 13 (ord c) || (ord c =? 32)%N || (ord c =? 133)%N || (ord c =? 160)%N.

Fixpoint lstrip_num (s : string) : string :=
  match s with
  | EmptyString => EmptyString
  | String c t => if isspace_num c then lstrip_num t else s
  end.

Fixpoint rstrip_num (s : string) : string :=
  match s with
  | EmptyString => EmptyString
  | String c t =>
      match rstrip_num t with
      | EmptyString => if isspace_num c then EmptyString else String c EmptyString
      | t' => String c t'
      end
  end.

Definition strip_num (s : string) : string := rstrip_num (lstrip_num s).

(** Digits with single underscores between them, as [int] and [float]
    accept them. [prev] tells whether the previous character was a
    digit. *)
Fixpoint int_digits (s : string) (acc : Z) (prev : bool) : option Z :=
  match s with
  | EmptyString => if prev then Some acc else None
  | String c t =>
      if Ascii.eqb c "_" then (if prev then int_digits t acc false else None)
      else match digit_val c with
           | Some d => int_digits t (10 * acc + d) true
           | None => None
           end
  end.

Definition take_sign (s : string) : bool * string :=
  match s with
  | String "-" r => (true, r)
  | String "+" r => (false, r)
  | _ => (false, s)
  end.

(** How many decimal digits a text has. *)
Fixpoint count_digits (s : string) : Z :=
  match s with
  | EmptyString => 0
  | String c t => (if isdecimal c then 1 else 0) + count_digits t
  end.

(** The interpreter's default limit on the digits of a text that is
    converted to an integer ([sys.get_int_max_str_digits()]). *)
Definition int_max_str_digits : Z := 4300.

(** [int(s)] in base ten. Integers are unbounded, but a text of more
    digits than the interpreter's limit is refused, leading zeros
    counted, underscores not. *)
Definition py_int (s : string) : res Z :=
  let '(neg, body) := take_sign (strip_num s) in
  match int_digits body 0 false with
  | Some n =>
      if int_max_str_digits <? count_digits body then Raise ValueError
      else Ok (if neg then - n else n)
  | None => Raise ValueError
  end.

(** [str(n)] for an integer. *)
Definition str_of_Z (n : Z) : string := NilZero.string_of_int (Z.to_int n).

(** [f"{n:02d}"]: at least two characters, padded with a zero. *)
Definition format_02d (n : Z) : string :=
  let s := str_of_Z n in
  if (String.length s <? 2)%nat then "0" +:+ s else s.

(** *** Floats *)

(** [bool(x)]: a float is false when it equals zero (either sign); a
    NaN is true. *)
Definition truthy_float (x : float) : bool := negb (x =? 0)%float.

Definition is_nan (x : float) : bool := negb (x =? x)%float.

(** [x / y]: division by a zero raises. *)
Definition py_div (x y : float) : res float :=
  if (y =? 0)%float then Raise ZeroDivisionError else Ok (x / y)%float.

(** Underscores of a numeric literal: each one between two digits.
    [prev] is the previous character (NUL at the start). *)
Fixpoint drop_underscores (s : string) (prev : ascii) : option string :=
  match s with
  | EmptyString => if Ascii.eqb prev "_" then None else Some EmptyString
  | String c t =>
      if Ascii.eqb c "_" then
        (if isdecimal prev then drop_underscores t c else None)
      else if Ascii.eqb prev "_" && negb (isdecimal c) then None
      else option_map (String c) (drop_underscores t c)
  end.

(** A run of decimal digits: its value on top of [acc], how many digits
    were read on top of [n], and what follows. *)
Fixpoint take_digits (s : string) (acc : Z) (n : nat) : Z * nat * string :=
  match s with
  | EmptyString => (acc, n, s)
  | String c t =>
      match digit_val c with
      | Some d => take_digits t (10 * acc + d) (S n)
      | None => (acc, n, s)
      end
  end.

(** [digits [. digits] [(e|E) [sign] digits]] with a digit in the
    mantissa: the decimal mantissa and exponent. *)
Definition parse_decimal (s : string) : option (Z * Z) :=
  let '(i, ni, r1) := take_digits s 0 0%nat in
  let '(m, nf, r2) :=
    match r1 with
    | String "." r => take_digits r i 0%nat
    | _ => (i, 0%nat, r1)
    end in
  if (ni + nf =? 0)%nat then None
  else match r2 with
       | EmptyString => Some (m, - Z.of_nat nf)
       | String c r3 =>
           if Ascii.eqb c "e" || Ascii.eqb c "E" then
             let '(neg, r4) := take_sign r3 in
             let '(e, ne, r5) := take_digits r4 0 0%nat in
             if (ne =? 0)%nat then None
             else match r5 with
                  | EmptyString => Some (m, (if neg then - e else e) - Z.of_nat nf)
                  | _ => None
                  end
           else None
       end.

(** The binary64 number nearest to [m * 10^e] (ties to even), with the
    sign [neg]; too large a magnitude gives an infinity. *)
Definition round_decimal (neg : bool) (m e : Z) : float :=
  match m with
  | Zpos p =>
      if 0 <=? e then
        SF2Prim (binary_normalize prec emax (cond_Zopp neg (m * 10 ^ e)) 0 neg)
      else
        SF2Prim (SFdiv prec emax (S754_finite neg p 0)
                   (S754_finite false (Z.to_pos (10 ^ (- e))) 0))
  | _ => if neg then (-0)%float else 0%float
  end.

(** [float(s)] for a string: the underscores are checked and taken
    out, the white space around the number is dropped, and the rest is
    an infinity, a NaN or a decimal number. *)
Definition py_float (s : string) : res float :=
  match drop_underscores s "000" with
  | None => Raise ValueError
  | Some t =>
      let '(neg, body) := take_sign (strip_num t) in
      let u := upper body in
      if String.eqb u "INF" || String.eqb u "INFINITY" then
        Ok (if neg then neg_infinity else infinity)
      else if String.eqb u "NAN" then Ok nan
      else match parse_decimal body with
           | Some (m, e) => Ok (round_decimal neg m e)
           | None => Raise ValueError
           end
  end.

(** *** Raw values *)

(** A value decoded from the extraction service's JSON answer. The
    normalisers look at such a value through [is None], [bool()] and
    [str()] only; [PyObj] stands for any other object (a float, a list,
    a dict) by its truth value and its text. *)
Inductive pyval : Type :=
  | PyNone
  | PyBool (b : bool)
  | PyInt (n : Z)
  | PyStr (s : string)
  | PyObj (truth : bool) (text : string).

(** [bool(v)]. *)
Definition truthy (v : pyval) : bool :=
  match v with
  | PyNone => false
  | PyBool b => b
  | PyInt n => negb (n =? 0)
  | PyStr s => negb (String.eqb s EmptyString)
  | PyObj t _ => t
  end.

(** [str(v)]. *)
Definition py_str (v : pyval) : string :=
  match v with
  | PyNone => "None"
  | PyBool true => "True"
  | PyBool false => "False"
  | PyInt n => str_of_Z n
  | PyStr s => s
  | PyObj _ text => text
  end.

(** *** Dates and times ([datetime]) *)

Record date : Type := mkdate { year : Z; month : Z; day : Z }.

Definition is_leap (y : Z) : bool :=
  (y mod 4 =? 0) && (negb (y mod 100 =? 0) || (y mod 400 =? 0)).

Definition days_in_month (y m : Z) : Z :=
  if m =? 2 then (if is_leap y then 29 else 28)
  else if (m =? 4) || (m =? 6) || (m =? 9) || (m =? 11) then 30
  else 31.

Definition valid_date (y m d : Z) : bool :=
  (1 <=? y) && (y <=? 9999) && (1 <=? m) && (m <=? 12)
  && (1 <=? d) && (d <=? days_in_month y m).

(** [date(y, m, d)]. *)
Definition new_date (y m d : Z) : res date :=
  if valid_date y m d then Ok (mkdate y m d) else Raise ValueError.

(** [date.max]. *)
Definition date_max : date := mkdate 9999 12 31.

Definition date_eqb (a b : date) : bool :=
  (year a =? year b) && (month a =? month b) && (day a =? day b).

(** [a < b] on dates. *)
Definition date_ltb (a b : date) : bool :=
  (year a <? year b)
  || ((year a =? year b)
      && ((month a <? month b) || ((month a =? month b) && (day a <? day b)))).

Definition digit_char (k : Z) : ascii := ascii_of_N (Z.to_N (48 + k)).

(** [f"{n:02d}"] and [f"{n:04d}"] for a field of at most that many
    digits. *)
Definition pad2 (n : Z) : string :=
  String (digit_char (n / 10 mod 10)) (String (digit_char (n mod 10)) EmptyString).

Definition pad4 (n : Z) : string := pad2 (n / 100) +:+ pad2 (n mod 100).

(** [d.isoformat()]. *)
Definition date_isoformat (d : date) : string :=
  pad4 (year d) +:+ "-" +:+ pad2 (month d) +:+ "-" +:+ pad2 (day d).

(** A [datetime]; [tzoffset] is the offset from UTC in microseconds of
    an aware value. *)
Record datetime : Type := mkdatetime {
  dt_date : date;
  hour : Z;
  minute : Z;
  second : Z;
  microsecond : Z;
  tzoffset : option Z
}.

(** [datetime(y, m, d, h, mi, s, us, tz)]: the fields are checked, and
    an offset must be strictly within a day. *)
Definition new_datetime (y m d h mi s us : Z) (tz : option Z) : res datetime :=
  bind (new_date y m d) (fun dd =>
    if (0 <=? h) && (h <? 24) && (0 <=? mi) && (mi <? 60) && (0 <=? s) && (s <? 60)
       && (0 <=? us) && (us <? 1000000)
       && match tz with
          | Some off => (- 86400000000 <? off) && (off <? 86400000000)
          | None => true
          end
    then Ok (mkdatetime dd h mi s us tz)
    else Raise ValueError).

Definition two_digits (s : string) : option (Z * string) :=
  match s with
  | String a (String b r) =>
      match digit_val a, digit_val b with
      | Some x, Some y => Some (10 * x + y, r)
      | _, _ => None
      end
  | _ => None
  end.

Definition four_digits (s : string) : option (Z * string) :=
  match two_digits s with
  | Some (hi, r) =>
      match two_digits r with
      | Some (lo, r') => Some (100 * hi + lo, r')
      | None => None
      end
  | None => None
  end.

Definition expect (c : ascii) (s : string) : option string :=
  match s with
  | String a r => if Ascii.eqb a c then Some r else None
  | EmptyString => None
  end.

(** [YYYY-MM-DD] at the head of the string, and what follows it. *)
Definition parse_isoformat_date (s : string) : option (Z * Z * Z * string) :=
  match four_digits s with
  | Some (y, r1) =>
      match expect "-" r1 with
      | Some r2 =>
          match two_digits r2 with
          | Some (m, r3) =>
              match expect "-" r3 with
              | Some r4 =>
                  match two_digits r4 with
                  | Some (d, r5) => Some (y, m, d, r5)
                  | None => None
                  end
              | None => None
              end
          | None => None
          end
      | None => None
      end
  | None => None
  end.

(** The fraction of a second: three or six digits, to the end. *)
Definition parse_fraction (s : string) : option Z :=
  let '(v, n, r) := take_digits s 0 0%nat in
  match r with
  | EmptyString =>
      if (n =? 3)%nat then Some (v * 1000)
      else if (n =? 6)%nat then Some v
      else None
  | _ => None
  end.

(** The whole string as [HH[:MM[:SS[.fff[fff]]]]]. *)
Definition parse_hh_mm_ss_ff (s : string) : option (Z * Z * Z * Z) :=
  match two_digits s with
  | None => None
  | Some (h, EmptyString) => Some (h, 0, 0, 0)
  | Some (h, String ":" r2) =>
      match two_digits r2 with
      | None => None
      | Some (m, EmptyString) => Some (h, m, 0, 0)
      | Some (m, String ":" r4) =>
          match two_digits r4 with
          | None => None
          | Some (sec, EmptyString) => Some (h, m, sec, 0)
          | Some (sec, String "." r6) =>
              match parse_fraction r6 with
              | Some us => Some (h, m, sec, us)
              | None => None
              end
          | Some _ => None
          end
      | Some _ => None
      end
  | Some _ => None
  end.

(** The time text up to the first sign, and the sign ([true] for a
    minus) with the offset text after it. *)
Fixpoint split_tz (s : string) : string * option (bool * string) :=
  match s with
  | EmptyString => (EmptyString, None)
  | String c t =>
      if Ascii.eqb c "-" then (EmptyString, Some (true, t))
      else if Ascii.eqb c "+" then (EmptyString, Some (false, t))
      else let '(a, z) := split_tz t in (String c a, z)
  end.

(** [HH[:MM[:SS[.fff[fff]]]][+HH:MM[:SS[.ffffff]]]]. *)
Definition parse_isoformat_time (s : string)
  : option (Z * Z * Z * Z * option Z) :=
  let '(tstr, tz) := split_tz s in
  match parse_hh_mm_ss_ff tstr with
  | None => None
  | Some (h, m, sec, us) =>
      match tz with
      | None => Some (h, m, sec, us, None)
      | Some (minus, tzstr) =>
          let n := String.length tzstr in
          if (n =? 5)%nat || (n =? 8)%nat || (n =? 15)%nat then
            match parse_hh_mm_ss_ff tzstr with
            | Some (zh, zm, zs, zus) =>
                let off := ((zh * 60 + zm) * 60 + zs) * 1000000 + zus in
                Some (h, m, sec, us, Some (if minus then - off else off))
            | None => None
            end
          else None
      end
  end.

(** [datetime.fromisoformat(s)], for the format the standard library
    documents from Python 3.7 on:
    [YYYY-MM-DD[*HH[:MM[:SS[.fff[fff]]]][+HH:MM[:SS[.ffffff]]]]], where
    [*] is any one character. (From 3.11 on the library reads further
    ISO 8601 forms as well.) *)
Definition fromisoformat (s : string) : res datetime :=
  match parse_isoformat_date s with
  | None => Raise ValueError
  | Some (y, m, d, EmptyString) => new_datetime y m d 0 0 0 0 None
  | Some (y, m, d, String _ tstr) =>
      match parse_isoformat_time tstr with
      | Some (h, mi, sec, us, tz) => new_datetime y m d h mi sec us tz
      | None => Raise ValueError
      end
  end.

(** *** [datetime.strptime] for the directives [%Y], [%m], [%d] *)

Inductive directive : Type :=
  | DirY
  | DirM
  | DirD
  | DirLit (c : ascii).

(** The directives of a format string; a directive other than the
    three above (or [%%]) is refused. *)
Fixpoint compile_format (fmt : string) : option (list directive) :=
  match fmt with
  | EmptyString => Some []
  | String "%" (String c t) =>
      match (if Ascii.eqb c "Y" then Some DirY
             else if Ascii.eqb c "m" then Some DirM
             else if Ascii.eqb c "d" then Some DirD
             else if Ascii.eqb c "%" then Some (DirLit "%")
             else None), compile_format t with
      | Some d, Some ds => Some (d :: ds)
      | _, _ => None
      end
  | String "%" EmptyString => None
  | String c t =>
      match compile_format t with
      | Some ds => Some (DirLit c :: ds)
      | None => None
      end
  end.

Definition between (lo hi : ascii) (c : ascii) : bool :=
  in_range (ord lo) (ord hi) (ord c).

(** The pattern of each directive, as the alternatives the library's
    regular expression lists, in its order; an alternative is a
    sequence of character classes.
    [%Y]: [\d\d\d\d]; [%m]: [1[0-2]|0[1-9]|[1-9]];
    [%d]: [3[0-1]|[1-2]\d|0[1-9]|[1-9]| [1-9]]. *)
Definition re_field (d : directive) : list (list (ascii -> bool)) :=
  match d with
  | DirY => [[isdecimal; isdecimal; isdecimal; isdecimal]]
  | DirM => [[Ascii.eqb "1"; between "0" "2"];
             [Ascii.eqb "0"; between "1" "9"];
             [between "1" "9"]]
  | DirD => [[Ascii.eqb "3"; between "0" "1"];
             [between "1" "2"; isdecimal];
             [Ascii.eqb "0"; between "1" "9"];
             [between "1" "9"];
             [Ascii.eqb " "; between "1" "9"]]
  | DirLit c => [[Ascii.eqb c]]
  end.

(** One alternative against the head of [s]: the text it takes and the
    rest. *)
Fixpoint re_seq (ps : list (ascii -> bool)) (s : string) : option (string * string) :=
  match ps with
  | [] => Some (EmptyString, s)
  | p :: ps' =>
      match s with
      | String c t =>
          if p c then
            match re_seq ps' t with
            | Some (m, r) => Some (String c m, r)
            | None => None
            end
          else None
      | EmptyString => None
      end
  end.

Fixpoint first_some {A B : Type} (f : A -> option B) (l : list A) : option B :=
  match l with
  | [] => None
  | a :: l' =>
      match f a with
      | Some b => Some b
      | None => first_some f l'
      end
  end.

(** [regex.match]: the first way, in the order of the alternatives and
    with backtracking, to match the whole format at the head of [s].
    Returns the text of each field and the unmatched rest. *)
Fixpoint regex_match (fmt : list directive) (s : string)
    (found : list (directive * string)) : option (list (directive * string) * string) :=
  match fmt with
  | [] => Some (found, s)
  | d :: fmt' =>
      first_some
        (fun alt =>
           match re_seq alt s with
           | Some (m, r) => regex_match fmt' r ((d, m) :: found)
           | None => None
           end)
        (re_field d)
  end.

(** The value of a field among the matched groups, [dflt] when the
    format has no such field. *)
Fixpoint group_int (which : directive -> bool) (dflt : Z)
    (found : list (directive * string)) : res Z :=
  match found with
  | [] => Ok dflt
  | (d, m) :: rest => if which d then py_int m else group_int which dflt rest
  end.

Definition is_DirY (d : directive) : bool := match d with DirY => true | _ => false end.
Definition is_DirM (d : directive) : bool := match d with DirM => true | _ => false end.
Definition is_DirD (d : directive) : bool := match d with DirD => true | _ => false end.

(** [datetime.strptime(s, fmt)]: the format must match the whole of
    [s]; a missing year is 1900, a missing month or day is 1. *)
Definition strptime (s : string) (fmt : string) : res datetime :=
  match compile_format fmt with
  | None => Raise ValueError
  | Some ds =>
      match regex_match ds s [] with
      | Some (found, EmptyString) =>
          bind (group_int is_DirY 1900 found) (fun y =>
          bind (group_int is_DirM 1 found) (fun m =>
          bind (group_int is_DirD 1 found) (fun d =>
          new_datetime y m d 0 0 0 0 None)))
      | _ => Raise ValueError
      end
  end.

End Py.

(** *** Lists and tables *)

Module PyList.
Import Py.

(** [sum(xs)] over floats: accumulated from the left, starting at 0.
    (Interpreters from 3.12 on also compensate the rounding error of
    the running sum; where every partial sum is exact the result is the
    same.) *)
Definition py_sum (xs : list float) : float :=
  fold_left PrimFloat.add xs 0%float.

Section Sorted.
Context {A K : Type}.
Variable key : A -> K.
Variable ltb : K -> K -> bool.

(** Insertion of [x] before the first element whose key is not below
    its own: [x] stays ahead of the elements of equal key. *)
Fixpoint insert_by (x : A) (l : list A) : list A :=
  match l with
  | [] => [x]
  | y :: l' => if ltb (key y) (key x) then y :: insert_by x l' else x :: l
  end.

(** [sorted(l, key=key)]: the stable sort of [l] by [key], which
    compares keys with [<] only. *)
Fixpoint sorted_by (l : list A) : list A :=
  match l with
  | [] => []
  | x :: l' => insert_by x (sorted_by l')
  end.

End Sorted.

(** [enumerate(l, start)]. *)
Fixpoint enumerate {A : Type} (start : Z) (l : list A) : list (Z * A) :=
  match l with
  | [] => []
  | x :: l' => (start, x) :: enumerate (start + 1) l'
  end.

(** A cell of a data frame: a number, a text, or nothing. *)
Inductive cell : Type :=
  | CNum (x : float)
  | CStr (s : string)
  | CNone.

Definition cell_is_text (c : cell) : bool :=
  match c with
  | CStr _ => true
  | _ => false
  end.

Definition cell_is_number (c : cell) : bool :=
  match c with
  | CNum _ => true
  | _ => false
  end.

(** [str.upper] on one cell of a column: a missing value where the
    cell is no text. *)
Definition cell_upper (c : cell) : cell :=
  match c with
  | CStr s => CStr (upper s)
  | _ => CNone
  end.

(** [Series.str.upper()] on a column of a frame built from rows. The
    [.str] accessor refuses, with an AttributeError, a column that
    holds numbers and no text (a column of numbers, or of numbers and
    missing values); a column of texts, of texts mixed with other
    cells, or of missing values only is taken cell by cell. *)
Definition str_refused (col : list cell) : bool :=
  existsb cell_is_number col && negb (existsb cell_is_text col).

Definition str_upper (col : list cell) : res (list cell) :=
  if str_refused col then Raise AttributeError else Ok (map cell_upper col).

(** [cell == text], element-wise. *)
Definition cell_is (c : cell) (text : string) : bool :=
  match c with
  | CStr s => String.eqb s text
  | _ => false
  end.

(** [Series.fillna(0)]: a missing value, or a NaN, becomes 0. *)
Definition fillna0 (c : cell) : cell :=
  match c with
  | CNone => CNum 0%float
  | CNum x => if is_nan x then CNum 0%float else CNum x
  | CStr s => CStr s
  end.

(** One cell under [Series.astype(float)]. *)
Definition cell_astype_float (c : cell) : res float :=
  match c with
  | CNum x => Ok x
  | CStr s => py_float s
  | CNone => Ok nan
  end.

(** [Series.astype(float)]: the first cell that does not convert
    raises. *)
Fixpoint astype_float (cs : list cell) : res (list float) :=
  match cs with
  | [] => Ok []
  | c :: cs' =>
      bind (cell_astype_float c) (fun x =>
      bind (astype_float cs') (fun xs => Ok (x :: xs)))
  end.

(** [r[j] += b[j]] on the eight accumulators of the numeric library's
    sum. *)
Definition add_block (r b : list float) : list float :=
  map (fun p => (fst p + snd p)%float) (combine r b).

(** [k] further blocks of eight values of [xs] are added to the
    accumulators [r]; what is left of [xs] comes back with them. *)
Fixpoint add_blocks (k : nat) (r xs : list float) : list float * list float :=
  match k with
  | O => (r, xs)
  | S k' => add_blocks k' (add_block r (firstn 8 xs)) (skipn 8 xs)
  end.

(** The eight accumulators, added as a tree. *)
Definition sum_accumulators (r : list float) : float :=
  match r with
  | [r0; r1; r2; r3; r4; r5; r6; r7] =>
      (((r0 + r1) + (r2 + r3)) + ((r4 + r5) + (r6 + r7)))%float
  | _ => fold_left PrimFloat.add r (-0)%float
  end.

(** The pairwise sum of the numeric library over a contiguous run of
    doubles. Fewer than 8 values are added from the left, starting at
    the negative zero. Up to 128 values go to eight accumulators by
    blocks of eight, the accumulators are added as a tree, and the
    values after the last whole block are added to that one by one. A
    longer run is split in two, the first part of [n / 2] values
    rounded down to a multiple of eight, and the sums of the parts are
    added. [fuel] bounds the depth of the splitting; the length of the
    run is enough. *)
Fixpoint pairwise_sum (fuel : nat) (xs : list float) : float :=
  let n := length xs in
  if (n <? 8)%nat then fold_left PrimFloat.add xs (-0)%float
  else if (n <=? 128)%nat then
    let '(r, rest) := add_blocks (n / 8 - 1) (firstn 8 xs) (skipn 8 xs) in
    fold_left PrimFloat.add rest (sum_accumulators r)
  else
    match fuel with
    | O => nan
    | S fuel' =>
        let n2 := (n / 2 - (n / 2) mod 8)%nat in
        (pairwise_sum fuel' (firstn n2 xs) + pairwise_sum fuel' (skipn n2 xs))%float
    end.

(** [Series.sum()] of a column of doubles: a NaN counts as 0, the
    empty column sums to 0, and the values are added by the numeric
    library, whose reduction adds the pairwise sum of the column to
    its starting value. The order of the additions is left to right up
    to 7 values only. The starting value is a zero; its sign shows
    only in the sum of a column of negative zeros and is taken
    negative here, as in the recent versions of the library, where
    such a column sums to the negative zero. *)
Definition series_sum (xs : list float) : float :=
  match xs with
  | [] => 0%float
  | _ =>
      ((-0) + pairwise_sum (length xs)
                (map (fun x => if is_nan x then 0%float else x) xs))%float
  end.

End PyList.

(** ** [models.py] *)

Module models.
Import Py PyList.

Record ReportHeader : Type := {
  reporter_name : string;
  report_date : date;
  trip_purpose : string;
  client : string;
  visit_type : string;
  base_currency : string;
  fx_usd_to_mxn : float  (* 1 USD = X MXN *)
}.

(** The constraint the model class puts on the rate: [ge=0.0001]. *)
Definition fx_valid (h : ReportHeader) : bool :=
  (0.0001 <=? fx_usd_to_mxn h)%float.

Record ExpenseEntry : Type := {
  id : string;
  merchant_name : option string;
  transaction_date : option date;
  transaction_time : option string;  (* HH:MM or free text *)
  total_amount : option float;
  currency_code : string;
  payment_method : option string;
  category : option string;
  notes : string;
  source_name : option string;
  _image_bytes : option string
}.

(** [x or dflt] for an optional string: [None] and the empty string
    are false. *)
Definition str_or (x : option string) (dflt : string) : string :=
  match x with
  | Some s => if String.eqb s EmptyString then dflt else s
  | None => dflt
  end.

(** A row of the expenses frame. *)
Record row : Type := {
  ID : string;
  Merchant : string;
  Date : string;
  Time : string;
  Total : cell;
  Currency : cell;
  Payment_Method : string;
  Category : string;
  Notes : string;
  Source : string
}.

(** [ExpenseEntry.to_row]. *)
Definition to_row (self : ExpenseEntry) : row :=
  {| ID := id self;
     Merchant := str_or (merchant_name self) "";
     Date := match transaction_date self with
             | Some d => date_isoformat d
             | None => ""
             end;
     Time := str_or (transaction_time self) "";
     Total := match total_amount self with
              | Some a => CNum a
              | None => CStr ""
              end;
     Currency := CStr (currency_code self);
     Payment_Method := str_or (payment_method self) "";
     Category := str_or (category self) "";
     Notes := notes self;
     Source := str_or (source_name self) "" |}.

End models.

(** ** [services/currency.py] *)

Module currency.
Import Py.

(** [k in d]. *)
Definition dict_has {V : Type} (d : gmap string V) (k : string) : bool :=
  match d !! k with
  | Some _ => true
  | None => false
  end.

(** [d[k]]. *)
Definition dict_get {V : Type} (d : gmap string V) (k : string) : res V :=
  match d !! k with
  | Some v => Ok v
  | None => Raise KeyError
  end.

(** The table [fetch_rates] falls back to when the service fails. *)
Definition fallback_rates (base : string) : gmap string float :=
  if String.eqb base "USD" then
    <["USD" := 1%float]> (<["MXN" := 18%float]> ∅)
  else if String.eqb base "MXN" then
    <["USD" := (1 / 18)%float]> (<["MXN" := 1%float]> ∅)
  else <[base := 1%float]> ∅.

(** [fetch_rates(base)], given what the exchange service answered:
    [Raise] when the request or the decoding of its answer raised (or
    the answer was no object, or its rates were no object), [Ok None]
    when the answer has no rates, [Ok (Some rates)] otherwise. *)
Definition fetch_rates (answer : res (option (gmap string float))) (base : string)
  : gmap string float :=
  match answer with
  | Ok (Some rates) =>
      (* Ensure base currency rate 1.0 *)
      <[base := 1%float]> rates
  | Ok None => <[base := 1%float]> ∅
  | Raise _ =>
      (* Fallback simple mapping if offline *)
      fallback_rates base
  end.

Definition convert (amount : float) (from_ccy to_ccy : string)
    (rates : gmap string float) : res float :=
  let from_ccy := upper from_ccy in
  let to_ccy := upper to_ccy in
  if negb (dict_has rates from_ccy) || negb (dict_has rates to_ccy) then Ok amount
  else if String.eqb from_ccy to_ccy then Ok amount
  else
    (* Convert via base rates map *)
    bind (dict_get rates from_ccy) (fun rate_from =>
    bind (py_div amount rate_from) (fun base_amount =>
    bind (dict_get rates to_ccy) (fun rate_to =>
    Ok (base_amount * rate_to)%float))).

End currency.

(** ** [services/openai_vision.py]: the field normalisers *)

Module openai_vision.
Import Py currency.

Definition _norm_str (value : pyval) : option string :=
  match value with
  | PyNone => None
  | _ =>
      let s := strip (py_str value) in
      if String.eqb s EmptyString then None else Some s
  end.

Definition _norm_float (value : pyval) : res (option float) :=
  match value with
  | PyNone => Ok None
  | _ =>
      try_except
        (let s := remove_char "," (py_str value) in
         bind (py_float s) (fun x => Ok (Some x)))
        (Ok None)
  end.

(** The symbol table of [_norm_currency]. *)
Definition currency_symbols : gmap string string := {[ "$" := "USD" ]}.

Definition _norm_currency (value : pyval) : string :=
  if negb (truthy value) then "USD"
  else
    let s := strip (upper (py_str value)) in
    if (String.length s =? 1)%nat then  (* symbols *)
      match currency_symbols !! s with
      | Some code => code
      | None => "USD"
      end
    else s.

(** The formats [_norm_date] tries after the ISO parse, in its order. *)
Definition date_formats : list string :=
  ["%Y-%m-%d"; "%d/%m/%Y"; "%m/%d/%Y"; "%d-%m-%Y"; "%m-%d-%Y"].

(** The [for fmt in ...: try ... except: continue] loop, then
    [return None]. *)
Fixpoint try_formats (s : string) (fmts : list string) : res (option date) :=
  match fmts with
  | [] => Ok None
  | fmt :: rest =>
      try_except
        (bind (strptime s fmt) (fun dt => Ok (Some (dt_date dt))))
        (try_formats s rest)
  end.

Definition _norm_date (value : pyval) : res (option date) :=
  if negb (truthy value) then Ok None
  else
    try_except
      (bind (fromisoformat (py_str value)) (fun dt => Ok (Some (dt_date dt))))
      (* Try common formats *)
      (try_formats (py_str value) date_formats).

Definition _norm_time (value : pyval) : res (option string) :=
  if negb (truthy value) then Ok None
  else
    let s := strip (py_str value) in
    (* Basic sanity: HH:MM variants *)
    let parts := split ":" s in
    if (2 <=? length parts)%nat && forallb isdigit (firstn 2 parts) then
      bind (py_int (nth 0 parts EmptyString)) (fun h =>
      let hh := h mod 24 in
      bind (py_int (nth 1 parts EmptyString)) (fun m =>
      let mm := m mod 60 in
      Ok (Some (format_02d hh +:+ ":" +:+ format_02d mm))))
    else Ok None.

(** The normalised fields of one receipt. *)
Record fields : Type := {
  f_merchant_name : option string;
  f_transaction_date : option date;
  f_transaction_time : option string;
  f_total_amount : option float;
  f_currency_code : string;
  f_payment_method : option string;
  f_category : option string;
  f_source_name : string
}.

(** [data.get(k)]. *)
Definition get (data : gmap string pyval) (k : string) : pyval :=
  match data !! k with
  | Some v => v
  | None => PyNone
  end.

(** The normalisation step of [extract_expense_fields], from the
    decoded answer [data] on; the fields are evaluated in the order of
    the dictionary display. *)
Definition normalize_fields (data : gmap string pyval) (file_name : string) : res fields :=
  let merchant := _norm_str (get data "merchant_name") in
  bind (_norm_date (get data "transaction_date")) (fun d =>
  bind (_norm_time (get data "transaction_time")) (fun t =>
  bind (_norm_float (get data "total_amount")) (fun a =>
  Ok {| f_merchant_name := merchant;
        f_transaction_date := d;
        f_transaction_time := t;
        f_total_amount := a;
        f_currency_code := _norm_currency (get data "currency_code");
        f_payment_method := _norm_str (get data "payment_method");
        f_category := _norm_str (get data "category");
        f_source_name := file_name |}))).

(** [extract_expense_fields], given what the call to the model and the
    decoding of its answer produced: [Ok data] for a decoded JSON object,
    [Raise] when the call or the decoding raised; an answer that is no
    object counts as the empty object, like a failure. *)
Definition extract_expense_fields (answer : res (gmap string pyval)) (file_name : string)
  : res fields :=
  let data :=
    match answer with
    | Ok data => data
    | Raise _ => ∅
    end in
  (* Normalize fields *)
  normalize_fields data file_name.

End openai_vision.

(** ** [services/report_pdf.py] *)

Module report_pdf.
Import Py PyList models.

(** The key of the sort:
    [(e.transaction_date or date.max, e.transaction_time or "99:99")]. *)
Definition sort_key (e : ExpenseEntry) : date * string :=
  (match transaction_date e with
   | Some d => d
   | None => date_max
   end,
   str_or (transaction_time e) "99:99").

(** [a < b] on the key tuples: the first components decide unless they
    are equal. Strings compare by code point. *)
Definition key_ltb (a b : date * string) : bool :=
  if date_eqb (fst a) (fst b) then String.ltb (snd a) (snd b)
  else date_ltb (fst a) (fst b).

Definition sorted_entries (entries : list ExpenseEntry) : list ExpenseEntry :=
  sorted_by sort_key key_ltb entries.

(** A row of the expenses table. [t_total] is the amount the row
    prints with two decimals, [None] for the blank cell. *)
Record table_row : Type := {
  t_merchant : string;
  t_date : string;
  t_time : string;
  t_total : option float;
  t_currency : string;
  t_payment : string;
  t_category : string;
  t_link : string
}.

Definition expense_row (idx : Z) (e : ExpenseEntry) : table_row :=
  {| t_merchant := str_or (merchant_name e) "";
     t_date := match transaction_date e with
               | Some d => date_isoformat d
               | None => ""
               end;
     t_time := str_or (transaction_time e) "";
     t_total := total_amount e;
     t_currency := currency_code e;
     t_payment := str_or (payment_method e) "";
     t_category := str_or (category e) "";
     t_link := "<link href='#rec" +:+ str_of_Z idx +:+ "' color='blue'>"
               +:+ str_or (source_name e) "receipt" +:+ "</link>" |}.

(** The rows of [table_data] below its heading row. *)
Definition table_data (entries : list ExpenseEntry) : list table_row :=
  map (fun ie => expense_row (fst ie) (snd ie)) (enumerate 1 (sorted_entries entries)).

(** [(e.total_amount or 0.0)]. *)
Definition amount_or_zero (e : ExpenseEntry) : float :=
  match total_amount e with
  | Some a => if truthy_float a then a else 0%float
  | None => 0%float
  end.

(** [(e.currency_code or "").upper() == code]; the code is a string,
    so [or] leaves it as it is. *)
Definition in_currency (code : string) (e : ExpenseEntry) : bool :=
  String.eqb (upper (currency_code e)) code.

Definition subtotal (code : string) (entries : list ExpenseEntry) : float :=
  py_sum (map amount_or_zero (List.filter (in_currency code) entries)).

Record totals : Type := {
  usd_sub : float;
  mxn_sub : float;
  total_usd : float;
  total_mxn : float
}.

(** Subtotals and totals. *)
Definition aggregate (entries : list ExpenseEntry) (usd_to_mxn : float) : res totals :=
  let usd_sub := subtotal "USD" entries in
  let mxn_sub := subtotal "MXN" entries in
  bind (if truthy_float usd_to_mxn then py_div mxn_sub usd_to_mxn else Ok 0%float)
    (fun contribution =>
  let total_usd := (usd_sub + contribution)%float in
  let total_mxn := (mxn_sub + usd_sub * usd_to_mxn)%float in
  Ok {| usd_sub := usd_sub; mxn_sub := mxn_sub;
        total_usd := total_usd; total_mxn := total_mxn |}).

(** The heading of each receipt page, in the order of the table. *)
Definition receipt_headings (entries : list ExpenseEntry) : list string :=
  map (fun ie => "<a name='rec" +:+ str_of_Z (fst ie) +:+ "'/>Receipt "
                 +:+ str_of_Z (fst ie) +:+ ": " +:+ str_or (source_name (snd ie)) "")
      (enumerate 1 (sorted_entries entries)).

(** What [build_pdf_report] hands to the drawing library: the rows of
    the expenses table, the totals and the headings of the receipt
    pages. *)
Record report : Type := {
  r_table : list table_row;
  r_totals : totals;
  r_receipts : list string
}.

(** The paragraph styles of the report: the sample sheet's title,
    second heading and body text, and the small style of the table
    cells. *)
Inductive paragraph_style : Type :=
  | Title
  | Heading2
  | BodyText
  | cell_style.

(** The texts of a table row that go through [Paragraph], in the order
    of the calls: merchant, payment method, category and link. *)
Definition row_paragraphs (r : table_row) : list (string * paragraph_style) :=
  [(t_merchant r, cell_style); (t_payment r, cell_style);
   (t_category r, cell_style); (t_link r, cell_style)].

Section Drawing.

(** [Paragraph(text, style)] of the drawing library parses the markup
    of [text] when it is built, and raises on a text it cannot parse.
    The parser is no part of the program: [Paragraph] stands for its
    verdict on a text. *)
Variable Paragraph : string -> paragraph_style -> res unit.

(** Whether the picture of a receipt goes through the body of the
    [try] of its page: decoded, converted, saved and taken by the
    drawing library, nothing raised. *)
Variable renders : string -> bool.

(** [doc.build(flow)] followed by [buf.getvalue()]: the drawing of the
    document from the header, the logo, the rate, the entries in table
    order and what was laid out. *)
Variable doc_build :
  ReportHeader -> option string -> float -> list ExpenseEntry -> report -> res string.

Fixpoint paragraphs (texts : list (string * paragraph_style)) : res unit :=
  match texts with
  | [] => Ok tt
  | (text, style) :: texts' => bind (Paragraph text style) (fun _ => paragraphs texts')
  end.

(** One receipt page: the heading, then the picture when the entry has
    one, or the notice that stands in for a picture that raised. *)
Definition receipt_page (heading : string) (e : ExpenseEntry) : res unit :=
  bind (Paragraph heading Heading2) (fun _ =>
  match _image_bytes e with
  | Some image =>
      if String.eqb image EmptyString then Ok tt
      else if renders image then Ok tt
      else Paragraph "[Unable to render image]" BodyText
  | None => Ok tt
  end).

Fixpoint receipt_pages (pages : list (string * ExpenseEntry)) : res unit :=
  match pages with
  | [] => Ok tt
  | (heading, e) :: pages' =>
      bind (receipt_page heading e) (fun _ => receipt_pages pages')
  end.

(** [build_pdf_report]: the title, the rows of the table, the totals,
    the receipt pages, and the drawing. *)
Definition build_pdf_report (header : ReportHeader) (entries : list ExpenseEntry)
    (usd_to_mxn : float) (logo_path : option string) : res string :=
  bind (Paragraph "<b>Expense Report</b>" Title) (fun _ =>
  let table := table_data entries in
  bind (paragraphs (concat (map row_paragraphs table))) (fun _ =>
  bind (aggregate entries usd_to_mxn) (fun t =>
  bind (receipt_pages (combine (receipt_headings entries) (sorted_entries entries))) (fun _ =>
  doc_build header logo_path usd_to_mxn (sorted_entries entries)
    {| r_table := table; r_totals := t; r_receipts := receipt_headings entries |})))).

End Drawing.

End report_pdf.

(** ** [ui/components.py]: the Totals sheet of the spreadsheet *)

Module components.
Import Py PyList models report_pdf.

(** [df.loc[mask, "Total"]]: the Total cells of the rows where the
    mask holds. *)
Definition loc_total (mask : list bool) (df : list row) : list cell :=
  map (fun br => Total (snd br)) (List.filter fst (combine mask df)).

(** [df.loc[df["Currency"].str.upper() == code, "Total"]
       .fillna(0).astype(float).sum() if not df.empty else 0.0]. *)
Definition frame_subtotal (code : string) (df : list row) : res float :=
  match df with
  | [] => Ok 0%float
  | _ =>
      bind (str_upper (map Currency df)) (fun codes =>
      let mask := map (fun c => cell_is c code) codes in
      bind (astype_float (map fillna0 (loc_total mask df))) (fun xs =>
      Ok (series_sum xs)))
  end.

(** [(header.fx_usd_to_mxn or 1)]. *)
Definition rate_or_one (x : float) : float :=
  if truthy_float x then x else 1%float.

(** The four values of the Totals sheet of [get_download_bytes]. *)
Definition totals_sheet (df : list row) (header : ReportHeader) : res totals :=
  bind (frame_subtotal "USD" df) (fun usd_sub =>
  bind (frame_subtotal "MXN" df) (fun mxn_sub =>
  bind (py_div mxn_sub (rate_or_one (fx_usd_to_mxn header))) (fun q =>
  let total_usd := (usd_sub + q)%float in
  let total_mxn := (mxn_sub + usd_sub * rate_or_one (fx_usd_to_mxn header))%float in
  Ok {| usd_sub := usd_sub; mxn_sub := mxn_sub;
        total_usd := total_usd; total_mxn := total_mxn |}))).


End components.

(** * Vocabulary of the properties *)

Import Py PyList models currency openai_vision report_pdf components.

(** ** Order and position in a list *)

Section SortedSpec.
Context {A K : Type}.
Variable key : A -> K.
Variable ltb : K -> K -> bool.

(** [x] may stand before [y]: the key of [y] is not below that of [x]. *)
Definition key_le (x y : A) : Prop := ltb (key y) (key x) = false.

(** [a] stands somewhere before [b] in [l]. *)
Definition precedes (a b : A) (l : list A) : Prop :=
  exists l1 l2 l3, l = l1 ++ a :: l2 ++ b :: l3.

(** Keys that the order does not tell apart. *)
Definition same_key (x y : A) : bool := negb (ltb (key x) (key y)) && negb (ltb (key y) (key x)).

End SortedSpec.

(** ** Orders on dates, texts and sort keys *)

Definition date_lt (a b : date) : Prop :=
  year a < year b
  \/ (year a = year b
      /\ (month a < month b \/ (month a = month b /\ day a < day b))).

Definition str_lt (a b : string) : Prop := String.compare a b = Lt.

(** [a < b] on keys, as a proposition. *)
Definition key_lt (a b : date * string) : Prop :=
  date_lt (fst a) (fst b) \/ (fst a = fst b /\ str_lt (snd a) (snd b)).

(** ** Times *)

(** A time as the normaliser writes it: [HH:MM] with [HH] below 24 and
    [MM] below 60. *)
Definition valid_hhmm (t : string) : bool :=
  match t with
  | String a (String b (String c (String d (String e EmptyString)))) =>
      match digit_val a, digit_val b, digit_val d, digit_val e with
      | Some x, Some y, Some z, Some w =>
          Ascii.eqb c ":" && (10 * x + y <? 24) && (10 * z + w <? 60)
      | _, _, _, _ => false
      end
  | _ => false
  end.

Definition hhmm (h m : Z) : string := format_02d h +:+ ":" +:+ format_02d m.

(** ** Dates *)

(** The date of the ISO parse of [s], [None] when the parse raises. *)
Definition iso_date (s : string) : option date :=
  match fromisoformat s with
  | Ok dt => Some (dt_date dt)
  | Raise _ => None
  end.

(** The date [s] has under the pattern [fmt], [None] when it does not
    parse. *)
Definition format_date (s fmt : string) : option date :=
  match strptime s fmt with
  | Ok dt => Some (dt_date dt)
  | Raise _ => None
  end.

(** [datetime.isoformat(sep)] of a naive date-time with whole
    seconds. *)
Definition datetime_isoformat (d : date) (sep : ascii) (h mi s : Z) : string :=
  date_isoformat d +:+ String sep (pad2 h +:+ ":" +:+ pad2 mi +:+ ":" +:+ pad2 s).

(** ** Amounts *)



(** ** Cells of the frame *)

(** A text that [float] does not read. *)
Definition cell_unreadable (c : cell) : bool :=
  match c with
  | CStr s => match py_float s with
              | Ok _ => false
              | Raise _ => true
              end
  | _ => false
  end.

(** The row counts for [code] and its Total cell is a text that
    [float] does not read. *)
Definition unreadable_in (code : string) (r : row) : bool :=
  cell_is (cell_upper (Currency r)) code && cell_unreadable (Total r).

(** The same, for either of the two currencies of the sheet. *)
Definition unreadable_total (r : row) : bool :=
  unreadable_in "USD" r || unreadable_in "MXN" r.

(** ** Texts of the report *)

(** The texts of the entries that the report has parsed as markup,
    each with its style: four for each row of the table, then the
    headings of the receipt pages. *)
Definition entry_texts (entries : list ExpenseEntry) : list (string * paragraph_style) :=
  concat (map row_paragraphs (table_data entries))
  ++ map (fun heading => (heading, Heading2)) (receipt_headings entries).

(** The drawing library parses the text in the style. *)
Definition parses (Paragraph : string -> paragraph_style -> res unit)
    (text : string * paragraph_style) : Prop :=
  Paragraph (fst text) (snd text) = Ok tt.

(** ** Sample entries and headers *)

Definition entry_with (amount : option float) (code : string) : ExpenseEntry :=
  {| id := ""; merchant_name := None; transaction_date := None;
     transaction_time := None; total_amount := amount; currency_code := code;
     payment_method := None; category := None; notes := "";
     source_name := None; _image_bytes := None |}.

Definition entry_at (d : option date) (t : option string) (src : string) : ExpenseEntry :=
  {| id := src; merchant_name := None; transaction_date := d;
     transaction_time := t; total_amount := None; currency_code := "USD";
     payment_method := None; category := None; notes := "";
     source_name := Some src; _image_bytes := None |}.

Definition header_with (rate : float) : ReportHeader :=
  {| reporter_name := ""; report_date := mkdate 2024 1 1; trip_purpose := "";
     client := ""; visit_type := ""; base_currency := "USD"; fx_usd_to_mxn := rate |}.

(** ** Texts of the normalisers *)

(** A character that [upper] leaves as it is. *)
Definition upper_fixed (c : ascii) : bool := String.eqb (upper_char c) (String c EmptyString).

(** The text of two digits, a colon and two digits. *)
Definition hhmm_text (x y z w : Z) : string :=
  String (digit_char x) (String (digit_char y)
    (String ":" (String (digit_char z) (String (digit_char w) EmptyString)))).

(** The time normaliser returns the text [t] as it is. *)
Definition norm_time_keeps (t : string) : bool :=
  match _norm_time (PyStr t) with
  | Ok (Some r) => String.eqb r t
  | _ => false
  end.

(** The text [AA<sep>BB<sep>YYYY], each field zero-padded. *)
Definition numeric_date_text (sep : ascii) (a b y : Z) : string :=
  pad2 a +:+ String sep (pad2 b +:+ String sep (pad4 y)).

(** The patterns [%d<sep>%m<sep>%Y] and [%m<sep>%d<sep>%Y]. *)
Definition dmy_format (sep : ascii) : string :=
  "%d" +:+ String sep ("%m" +:+ String sep "%Y").

Definition mdy_format (sep : ascii) : string :=
  "%m" +:+ String sep ("%d" +:+ String sep "%Y").

(** * Properties *)

(** ** Currency converter *)

Section ConvertFacts.
Variable amount : float.
Variable rates : gmap string float.

Lemma dict_has_false (k : string) : rates !! k = None -> dict_has rates k = false.
Proof. unfold dict_has. intros ->. reflexivity. Qed.

Lemma dict_has_true (k : string) (v : float) : rates !! k = Some v -> dict_has rates k = true.
Proof. unfold dict_has. intros ->. reflexivity. Qed.

(** Same code on both sides, whatever the table holds. *)
Lemma convert_same_code (from_ccy to_ccy : string) :
  upper from_ccy = upper to_ccy -> convert amount from_ccy to_ccy rates = Ok amount.
Proof.
  intros Heq. unfold convert. rewrite Heq.
  destruct (negb (dict_has rates (upper to_ccy)) || negb (dict_has rates (upper to_ccy))); [reflexivity|].
  rewrite String.eqb_refl. reflexivity.
Qed.

(** Both codes known and different: the amount goes through the base. *)
Lemma convert_known (from_ccy to_ccy : string) (rf rt : float) :
  rates !! upper from_ccy = Some rf ->
  rates !! upper to_ccy = Some rt ->
  upper from_ccy <> upper to_ccy ->
  convert amount from_ccy to_ccy rates =
    bind (py_div amount rf) (fun base_amount => Ok (base_amount * rt)%float).
Proof.
  intros Hf Ht Hne. unfold convert.
  rewrite (dict_has_true _ _ Hf), (dict_has_true _ _ Ht). simpl.
  apply String.eqb_neq in Hne. rewrite Hne.
  unfold dict_get. rewrite Hf. simpl. destruct (py_div amount rf); simpl; [|reflexivity].
  rewrite Ht. reflexivity.
Qed.

(** No test is made on the value of a rate: a source rate of zero, with
    both codes known and different, makes the division raise. *)
Lemma convert_zero_rate (from_ccy to_ccy : string) (rf rt : float) :
  rates !! upper from_ccy = Some rf ->
  rates !! upper to_ccy = Some rt ->
  upper from_ccy <> upper to_ccy ->
  (rf =? 0)%float = true ->
  convert amount from_ccy to_ccy rates = Raise ZeroDivisionError.
Proof.
  intros Hf Ht Hne Hz. rewrite (convert_known _ _ _ _ Hf Ht Hne).
  unfold py_div. rewrite Hz. reflexivity.
Qed.

End ConvertFacts.

(** C1, as amended. For every amount and every rate table, when the
    upper-cased source code or the upper-cased target code is absent
    from the table, the conversion returns the amount unchanged and
    raises nothing. *)
Theorem convert_unknown_code_identity
    (amount : float) (from_ccy to_ccy : string) (rates : gmap string float) :
  rates !! upper from_ccy = None \/ rates !! upper to_ccy = None ->
  convert amount from_ccy to_ccy rates = Ok amount.
Proof.
  intros [H | H]; unfold convert; rewrite (dict_has_false _ _ H); simpl.
  - reflexivity.
  - rewrite orb_true_r. reflexivity.
Qed.

Lemma convert_unknown_code_identity_witness :
  convert 10%float "eur" "MXN" (fallback_rates "USD") = Ok 10%float.
Proof.
  apply (convert_unknown_code_identity 10%float "eur" "MXN" (fallback_rates "USD")).
  left. vm_compute. reflexivity.
Defined.

(** C1 as stated fails: a source code whose rate is zero is not given
    back unchanged; the division by the rate raises. *)
Lemma convert_zero_rate_raises :
  let rates : gmap string float := <["USD" := 0%float]> (<["MXN" := 18%float]> ∅) in
  rates !! "USD" = Some 0%float
  /\ convert 10%float "USD" "MXN" rates = Raise ZeroDivisionError
  /\ convert 10%float "USD" "MXN" rates <> Ok 10%float.
Proof.
  vm_compute. repeat split; try reflexivity. discriminate.
Qed.

(** ** Expense aggregator *)

Lemma py_div_truthy (x y : float) :
  truthy_float y = true -> py_div x y = Ok (x / y)%float.
Proof.
  unfold truthy_float, py_div. intros H. apply negb_true_iff in H. rewrite H. reflexivity.
Qed.

(** C2. With a rate of 18.0 and exactly two entries, one of 100 in USD
    and one of 180 in MXN (in either order, whatever their other
    fields), the aggregator gives subtotal-USD 100, subtotal-MXN 180,
    total-USD 110 and total-MXN 1980. *)
Theorem aggregate_scenario (e1 e2 : ExpenseEntry) :
  total_amount e1 = Some 100%float -> currency_code e1 = "USD" ->
  total_amount e2 = Some 180%float -> currency_code e2 = "MXN" ->
  let expected := Ok {| usd_sub := 100; mxn_sub := 180;
                        total_usd := 110; total_mxn := 1980 |} in
  aggregate [e1; e2] 18%float = expected /\ aggregate [e2; e1] 18%float = expected.
Proof.
  intros A1 C1 A2 C2.
  destruct e1, e2; simpl in *; subst.
  split; vm_compute; reflexivity.
Qed.

Lemma aggregate_scenario_witness :
  aggregate [entry_with (Some 100%float) "USD"; entry_with (Some 180%float) "MXN"] 18%float
  = Ok {| usd_sub := 100; mxn_sub := 180; total_usd := 110; total_mxn := 1980 |}.
Proof.
  apply (aggregate_scenario (entry_with (Some 100%float) "USD")
           (entry_with (Some 180%float) "MXN")); reflexivity.
Defined.

(** ** The stable sort *)

Section SortedByFacts.
Context {A K : Type}.
Variable key : A -> K.
Variable ltb : K -> K -> bool.

Lemma insert_by_perm (x : A) (l : list A) :
  Permutation (insert_by key ltb x l) (x :: l).
Proof.
  induction l as [|y l IH]; simpl.
  - apply Permutation_refl.
  - destruct (ltb (key y) (key x)).
    + eapply Permutation_trans; [apply perm_skip, IH | apply perm_swap].
    + apply Permutation_refl.
Qed.

Lemma sorted_by_perm (l : list A) : Permutation (sorted_by key ltb l) l.
Proof.
  induction l as [|x l IH]; simpl.
  - apply perm_nil.
  - eapply Permutation_trans; [apply insert_by_perm | apply perm_skip, IH].
Qed.

Lemma sorted_by_In (x : A) (l : list A) : In x (sorted_by key ltb l) <-> In x l.
Proof.
  split; apply Permutation_in; [|apply Permutation_sym]; apply sorted_by_perm.
Qed.

Hypothesis ltb_asym : forall a b, ltb a b = true -> ltb b a = false.
Hypothesis leb_trans : forall a b c, ltb b a = false -> ltb c b = false -> ltb c a = false.

Lemma insert_by_Forall (P : A -> Prop) (x : A) (l : list A) :
  P x -> Forall P l -> Forall P (insert_by key ltb x l).
Proof.
  intros Hx Hl. eapply Permutation_Forall.
  - apply Permutation_sym, insert_by_perm.
  - constructor; assumption.
Qed.

Lemma insert_by_sorted (x : A) (l : list A) :
  StronglySorted (key_le key ltb) l -> StronglySorted (key_le key ltb) (insert_by key ltb x l).
Proof.
  induction 1 as [|y l Hs IH Hy]; simpl.
  - constructor; constructor.
  - destruct (ltb (key y) (key x)) eqn:E.
    + constructor; [exact IH|].
      apply insert_by_Forall; [|exact Hy].
      unfold key_le. apply ltb_asym. exact E.
    + constructor; [constructor; assumption|].
      constructor; [exact E|].
      eapply List.Forall_impl; [|exact Hy].
      intros z Hz. unfold key_le in *. eapply leb_trans; eassumption.
Qed.

Lemma sorted_by_sorted (l : list A) : StronglySorted (key_le key ltb) (sorted_by key ltb l).
Proof.
  induction l as [|x l IH]; simpl.
  - constructor.
  - apply insert_by_sorted, IH.
Qed.

Lemma sorted_precedes (a b : A) (l : list A) :
  StronglySorted (key_le key ltb) l -> precedes a b l -> key_le key ltb a b.
Proof.
  intros Hs (l1 & l2 & l3 & ->).
  induction l1 as [|x l1 IH]; simpl in Hs.
  - inversion Hs as [|? ? _ Hall]; subst.
    rewrite List.Forall_forall in Hall. apply Hall.
    apply in_or_app. right. left. reflexivity.
  - inversion Hs; subst. auto.
Qed.

(** In the sorted list no element stands before one of a smaller key. *)
Lemma sorted_by_order (a b : A) (l : list A) :
  precedes a b (sorted_by key ltb l) -> ltb (key b) (key a) = false.
Proof. apply sorted_precedes, sorted_by_sorted. Qed.

Hypothesis ltb_leb_trans : forall a b c, ltb a b = true -> ltb c b = false -> ltb a c = true.

Lemma insert_by_stable (z x : A) (l : list A) :
  List.filter (same_key key ltb z) (insert_by key ltb x l) = List.filter (same_key key ltb z) (x :: l).
Proof.
  induction l as [|y l IH]; [reflexivity|].
  cbn [insert_by]. destruct (ltb (key y) (key x)) eqn:E; [|reflexivity].
  cbn [List.filter] in *. rewrite IH.
  destruct (same_key key ltb z x) eqn:Ex; [|reflexivity].
  destruct (same_key key ltb z y) eqn:Ey; [|reflexivity].
  exfalso. unfold same_key in Ex, Ey.
  apply andb_true_iff in Ex as [Ex _]. apply andb_true_iff in Ey as [_ Ey].
  apply negb_true_iff in Ex, Ey.
  pose proof (ltb_leb_trans _ _ _ E Ex) as H. congruence.
Qed.

(** The sort is stable: the elements of one key keep their order. *)
Lemma sorted_by_stable (z : A) (l : list A) :
  List.filter (same_key key ltb z) (sorted_by key ltb l) = List.filter (same_key key ltb z) l.
Proof.
  induction l as [|x l IH]; [reflexivity|].
  cbn [sorted_by]. rewrite insert_by_stable. cbn [List.filter]. rewrite IH. reflexivity.
Qed.

End SortedByFacts.

Lemma enumerate_In {A : Type} (x : A) (l : list A) (start : Z) :
  In x l -> exists idx, start <= idx /\ In (idx, x) (enumerate start l).
Proof.
  revert start. induction l as [|y l IH]; intros start; simpl; [tauto|].
  intros [-> | H].
  - exists start. split; [lia | left; reflexivity].
  - destruct (IH (start + 1) H) as (idx & Hle & Hin).
    exists idx. split; [lia | right; exact Hin].
Qed.

Lemma enumerate_snd {A : Type} (l : list A) (start : Z) :
  map snd (enumerate start l) = l.
Proof.
  revert start. induction l as [|y l IH]; intros start; simpl; [reflexivity|].
  rewrite IH. reflexivity.
Qed.


(** ** The order of the sort keys *)

Lemma date_ltb_lt (a b : date) : date_ltb a b = true <-> date_lt a b.
Proof.
  unfold date_ltb, date_lt.
  destruct (Z.ltb_spec (year a) (year b)), (Z.eqb_spec (year a) (year b)),
    (Z.ltb_spec (month a) (month b)), (Z.eqb_spec (month a) (month b)),
    (Z.ltb_spec (day a) (day b)); simpl; split; intros; try discriminate; try reflexivity; lia.
Qed.

Lemma date_ltb_nlt (a b : date) : date_ltb a b = false <-> ~ date_lt a b.
Proof.
  rewrite <- not_true_iff_false, date_ltb_lt. reflexivity.
Qed.

Lemma date_eqb_eq (a b : date) : date_eqb a b = true <-> a = b.
Proof.
  unfold date_eqb. destruct a as [ya ma da], b as [yb mb db]; simpl.
  rewrite !andb_true_iff, !Z.eqb_eq. split.
  - intros [[-> ->] ->]. reflexivity.
  - intros H. inversion H. auto.
Qed.

Lemma date_eqb_refl (a : date) : date_eqb a a = true.
Proof. apply date_eqb_eq. reflexivity. Qed.

Lemma date_lt_irrefl (a : date) : ~ date_lt a a.
Proof. unfold date_lt. lia. Qed.

Lemma date_lt_trans (a b c : date) : date_lt a b -> date_lt b c -> date_lt a c.
Proof. unfold date_lt. lia. Qed.

Lemma date_lt_total (a b : date) : ~ date_lt a b -> ~ date_lt b a -> a = b.
Proof.
  unfold date_lt. destruct a, b; simpl. intros H1 H2.
  assert (year0 = year1) by lia. assert (month0 = month1) by lia.
  assert (day0 = day1) by lia. subst. reflexivity.
Qed.

Lemma ascii_compare_refl (a : ascii) : Ascii.compare a a = Eq.
Proof. unfold Ascii.compare. apply N.compare_refl. Qed.

Lemma ascii_compare_lt_trans (a b c : ascii) :
  Ascii.compare a b = Lt -> Ascii.compare b c = Lt -> Ascii.compare a c = Lt.
Proof.
  unfold Ascii.compare. rewrite !N.compare_lt_iff. apply N.lt_trans.
Qed.

Lemma str_compare_lt_trans (a b c : string) :
  String.compare a b = Lt -> String.compare b c = Lt -> String.compare a c = Lt.
Proof.
  revert b c. induction a as [|x a IH]; intros [|y b] [|z c]; simpl; try discriminate; auto.
  destruct (Ascii.compare x y) eqn:Exy; try discriminate;
    destruct (Ascii.compare y z) eqn:Eyz; try discriminate.
  - apply Ascii.compare_eq_iff in Exy, Eyz. subst.
    rewrite ascii_compare_refl. apply IH.
  - apply Ascii.compare_eq_iff in Exy. subst. rewrite Eyz. reflexivity.
  - apply Ascii.compare_eq_iff in Eyz. subst. rewrite Exy. reflexivity.
  - rewrite (ascii_compare_lt_trans _ _ _ Exy Eyz). reflexivity.
Qed.

Lemma str_ltb_lt (a b : string) : String.ltb a b = true <-> str_lt a b.
Proof.
  unfold String.ltb, str_lt. destruct (String.compare a b); split; intros; try discriminate; reflexivity.
Qed.

Lemma str_ltb_nlt (a b : string) : String.ltb a b = false <-> ~ str_lt a b.
Proof.
  rewrite <- not_true_iff_false, str_ltb_lt. reflexivity.
Qed.

Lemma str_lt_irrefl (a : string) : ~ str_lt a a.
Proof.
  unfold str_lt. intros H. pose proof (String.compare_antisym a a) as E.
  rewrite H in E. discriminate.
Qed.

Lemma str_lt_asym (a b : string) : str_lt a b -> ~ str_lt b a.
Proof.
  unfold str_lt. intros H H'. rewrite String.compare_antisym, H' in H. discriminate.
Qed.

Lemma str_lt_total (a b : string) : ~ str_lt a b -> ~ str_lt b a -> a = b.
Proof.
  unfold str_lt. intros H1 H2. apply String.compare_eq_iff.
  destruct (String.compare a b) eqn:E; [reflexivity | tauto |].
  exfalso. apply H2. rewrite String.compare_antisym, E. reflexivity.
Qed.

Lemma key_ltb_lt (a b : date * string) : key_ltb a b = true <-> key_lt a b.
Proof.
  unfold key_ltb, key_lt. destruct (date_eqb (fst a) (fst b)) eqn:E.
  - apply date_eqb_eq in E. rewrite str_ltb_lt. split; [tauto|].
    intros [H | [_ H]]; [|exact H]. rewrite E in H. destruct (date_lt_irrefl _ H).
  - rewrite date_ltb_lt. split; [tauto|].
    intros [H | [H _]]; [exact H|]. apply date_eqb_eq in H. congruence.
Qed.

Lemma key_ltb_nlt (a b : date * string) : key_ltb a b = false <-> ~ key_lt a b.
Proof.
  rewrite <- not_true_iff_false, key_ltb_lt. reflexivity.
Qed.

Lemma key_lt_trans (a b c : date * string) : key_lt a b -> key_lt b c -> key_lt a c.
Proof.
  unfold key_lt. intros [H1 | [E1 H1]] [H2 | [E2 H2]].
  - left. eapply date_lt_trans; eassumption.
  - left. rewrite <- E2. exact H1.
  - left. rewrite E1. exact H2.
  - right. split; [congruence|]. eapply str_compare_lt_trans; eassumption.
Qed.

Lemma key_lt_asym (a b : date * string) : key_lt a b -> ~ key_lt b a.
Proof.
  unfold key_lt. intros [H1 | [E1 H1]] [H2 | [E2 H2]].
  - apply (date_lt_irrefl (fst a)). eapply date_lt_trans; eassumption.
  - rewrite E2 in H1. apply (date_lt_irrefl _ H1).
  - rewrite E1 in H2. apply (date_lt_irrefl _ H2).
  - apply (str_lt_asym _ _ H1 H2).
Qed.

Lemma key_lt_total (a b : date * string) : ~ key_lt a b -> ~ key_lt b a -> a = b.
Proof.
  unfold key_lt. destruct a as [da ta], b as [db tb]; simpl. intros H1 H2.
  assert (da = db) as ->.
  { apply date_lt_total; tauto. }
  f_equal. apply str_lt_total; intros H; [apply H1 | apply H2]; right; auto.
Qed.

Lemma key_ltb_asym (a b : date * string) : key_ltb a b = true -> key_ltb b a = false.
Proof. rewrite key_ltb_lt, key_ltb_nlt. apply key_lt_asym. Qed.

Lemma key_leb_trans (a b c : date * string) :
  key_ltb b a = false -> key_ltb c b = false -> key_ltb c a = false.
Proof.
  rewrite !key_ltb_nlt. intros H1 H2 H3.
  destruct (key_ltb a b) eqn:E.
  - apply key_ltb_lt in E. apply H2. eapply key_lt_trans; eassumption.
  - apply key_ltb_nlt in E. pose proof (key_lt_total _ _ E H1). subst. tauto.
Qed.

Lemma key_ltb_leb_trans (a b c : date * string) :
  key_ltb a b = true -> key_ltb c b = false -> key_ltb a c = true.
Proof.
  rewrite !key_ltb_lt, key_ltb_nlt. intros H1 H2.
  destruct (key_ltb b c) eqn:E.
  - apply key_ltb_lt in E. eapply key_lt_trans; eassumption.
  - apply key_ltb_nlt in E. pose proof (key_lt_total _ _ E H2). subst. exact H1.
Qed.

(** The table order is a permutation of the entries, ascending in the
    key, and stable. *)
Lemma sorted_entries_perm (entries : list ExpenseEntry) :
  Permutation (sorted_entries entries) entries.
Proof. apply sorted_by_perm. Qed.

Lemma sorted_entries_sorted (entries : list ExpenseEntry) :
  StronglySorted (key_le sort_key key_ltb) (sorted_entries entries).
Proof. exact (sorted_by_sorted sort_key key_ltb key_ltb_asym key_leb_trans entries). Qed.

Lemma sorted_entries_stable (z : ExpenseEntry) (entries : list ExpenseEntry) :
  List.filter (same_key sort_key key_ltb z) (sorted_entries entries)
  = List.filter (same_key sort_key key_ltb z) entries.
Proof. exact (sorted_by_stable sort_key key_ltb key_ltb_leb_trans z entries). Qed.

Lemma sorted_entries_order (a b : ExpenseEntry) (entries : list ExpenseEntry) :
  precedes a b (sorted_entries entries) -> ~ key_lt (sort_key b) (sort_key a).
Proof.
  intros H. apply key_ltb_nlt.
  exact (sorted_by_order sort_key key_ltb key_ltb_asym key_leb_trans a b entries H).
Qed.

(** ** Entries in a third currency *)

Lemma in_currency_false (code : string) (e : ExpenseEntry) :
  upper (currency_code e) <> code -> in_currency code e = false.
Proof. intros H. unfold in_currency. apply String.eqb_neq. exact H. Qed.

Lemma subtotal_without (code : string) (e : ExpenseEntry) (l1 l2 : list ExpenseEntry) :
  upper (currency_code e) <> code ->
  subtotal code (l1 ++ e :: l2) = subtotal code (l1 ++ l2).
Proof.
  intros H. unfold subtotal. rewrite !List.filter_app. cbn [List.filter].
  rewrite (in_currency_false _ _ H). reflexivity.
Qed.

Lemma table_data_In (entries : list ExpenseEntry) (e : ExpenseEntry) :
  In e entries -> exists idx, 1 <= idx /\ In (expense_row idx e) (table_data entries).
Proof.
  intros H. apply (sorted_by_In sort_key key_ltb) in H.
  destruct (enumerate_In e _ 1 H) as (idx & Hle & Hin).
  exists idx. split; [exact Hle|].
  unfold table_data.
  apply (in_map (fun ie => expense_row (fst ie) (snd ie))) in Hin. exact Hin.
Qed.

(** C4. An entry whose code, upper-cased, is neither USD nor MXN still
    has its row in the expenses table (showing its own code and
    amount), and the four aggregator values are what they are without
    it. *)
Theorem other_currency_listed_not_counted
    (entries : list ExpenseEntry) (e : ExpenseEntry) (usd_to_mxn : float) :
  In e entries ->
  upper (currency_code e) <> "USD" ->
  upper (currency_code e) <> "MXN" ->
  (exists idx, 1 <= idx /\ In (expense_row idx e) (table_data entries)
               /\ t_currency (expense_row idx e) = currency_code e
               /\ t_total (expense_row idx e) = total_amount e)
  /\ (forall l1 l2, entries = l1 ++ e :: l2 ->
        aggregate entries usd_to_mxn = aggregate (l1 ++ l2) usd_to_mxn).
Proof.
  intros Hin Husd Hmxn. split.
  - destruct (table_data_In entries e Hin) as (idx & Hle & Hrow).
    exists idx. repeat split; assumption.
  - intros l1 l2 ->. unfold aggregate.
    rewrite (subtotal_without "USD" e l1 l2 Husd), (subtotal_without "MXN" e l1 l2 Hmxn).
    reflexivity.
Qed.

Lemma other_currency_listed_not_counted_witness :
  let eur := entry_with (Some 50%float) "eur" in
  let usd := entry_with (Some 100%float) "USD" in
  (exists idx, 1 <= idx /\ In (expense_row idx eur) (table_data [usd; eur])
               /\ t_currency (expense_row idx eur) = "eur"
               /\ t_total (expense_row idx eur) = Some 50%float)
  /\ (forall l1 l2, [usd; eur] = l1 ++ eur :: l2 ->
        aggregate [usd; eur] 18%float = aggregate (l1 ++ l2) 18%float).
Proof.
  intros eur usd.
  apply (other_currency_listed_not_counted [usd; eur] eur 18%float).
  - right. left. reflexivity.
  - vm_compute. discriminate.
  - vm_compute. discriminate.
Defined.

(** ** The order of the expenses table *)

Lemma digit_val_Some (c : ascii) (x : Z) :
  digit_val c = Some x -> 0 <= x <= 9 /\ Z.of_N (ord c) = x + 48.
Proof.
  unfold digit_val, isdecimal, in_range. destruct (_ && _) eqn:E; [|discriminate].
  intros [= <-]. apply andb_true_iff in E as [E1 E2].
  apply N.leb_le in E1, E2. lia.
Qed.

(** The sentinel is above every valid time. *)
Lemma valid_hhmm_below_sentinel (t : string) :
  valid_hhmm t = true -> str_lt t "99:99".
Proof.
  destruct t as [|a [|b [|c [|d [|e [|? ?]]]]]]; simpl; try discriminate.
  destruct (digit_val a) as [x|] eqn:Ea; [|discriminate].
  destruct (digit_val b) as [y|] eqn:Eb; [|discriminate].
  destruct (digit_val d) as [z|] eqn:Ed; [|discriminate].
  destruct (digit_val e) as [w|] eqn:Ee; [|discriminate].
  intros H. apply andb_true_iff in H as [H _]. apply andb_true_iff in H as [_ H].
  apply Z.ltb_lt in H.
  apply digit_val_Some in Ea as [Ha Ea], Eb as [Hb _].
  unfold str_lt. simpl.
  assert (Ascii.compare a "9" = Lt) as ->; [|reflexivity].
  unfold Ascii.compare. apply N.compare_lt_iff. unfold ord in Ea. cbn. lia.
Qed.

Lemma valid_hhmm_key (t : string) :
  valid_hhmm t = true -> str_or (Some t) "99:99" = t.
Proof. destruct t; [discriminate | reflexivity]. Qed.

Lemma no_time_key (e : ExpenseEntry) :
  transaction_time e = None \/ transaction_time e = Some EmptyString ->
  snd (sort_key e) = "99:99".
Proof. unfold sort_key. intros [-> | ->]; reflexivity. Qed.

(** C5, as amended. For every collection of entries the table order is
    a permutation of the entries in ascending order of the key (date,
    or 9999-12-31 when absent; time text, or 99:99 when absent), dates
    first and times between equal dates. So dated entries are in
    ascending date order; an entry without a date comes after every
    entry dated before 9999-12-31, whatever the times; on one date the
    times ascend as text, an entry without a time comes after every
    entry with a valid HH:MM time, and 99:99 is above every valid
    time. *)
Theorem table_order (entries : list ExpenseEntry) :
  Permutation (sorted_entries entries) entries
  /\ (forall a b, precedes a b (sorted_entries entries) ->
        ~ key_lt (sort_key b) (sort_key a))
  /\ (forall a b da db,
        transaction_date a = Some da -> transaction_date b = Some db ->
        precedes a b (sorted_entries entries) -> ~ date_lt db da)
  /\ (forall a b d,
        transaction_date a = None -> transaction_date b = Some d ->
        date_lt d date_max -> ~ precedes a b (sorted_entries entries))
  /\ (forall a b ta tb,
        transaction_date a = transaction_date b ->
        transaction_time a = Some ta -> ta <> EmptyString ->
        transaction_time b = Some tb -> tb <> EmptyString ->
        precedes a b (sorted_entries entries) -> ~ str_lt tb ta)
  /\ (forall a b t,
        transaction_date a = transaction_date b ->
        transaction_time a = None \/ transaction_time a = Some EmptyString ->
        transaction_time b = Some t -> valid_hhmm t = true ->
        ~ precedes a b (sorted_entries entries))
  /\ (forall t, valid_hhmm t = true -> str_lt t "99:99").
Proof.
  repeat split.
  - apply sorted_entries_perm.
  - intros a b. apply sorted_entries_order.
  - intros a b da db Ha Hb Hp Hlt.
    apply (sorted_entries_order a b entries Hp).
    left. unfold sort_key. rewrite Ha, Hb. exact Hlt.
  - intros a b d Ha Hb Hlt Hp.
    apply (sorted_entries_order a b entries Hp).
    left. unfold sort_key. rewrite Ha, Hb. exact Hlt.
  - intros a b ta tb Hd Ha Hta Hb Htb Hp Hlt.
    apply (sorted_entries_order a b entries Hp).
    right. unfold sort_key. rewrite Hd, Ha, Hb. simpl. split; [reflexivity|].
    destruct ta; [congruence|]. destruct tb; [congruence|]. exact Hlt.
  - intros a b t Hd Ha Hb Hv Hp.
    apply (sorted_entries_order a b entries Hp).
    right. split.
    + unfold sort_key. rewrite Hd. reflexivity.
    + rewrite (no_time_key a Ha). unfold sort_key. rewrite Hb. cbn [snd].
      rewrite (valid_hhmm_key t Hv). apply valid_hhmm_below_sentinel, Hv.
  - apply valid_hhmm_below_sentinel.
Qed.

Lemma table_order_witness :
  let undated := entry_at None (Some "08:00") "a" in
  let dated := entry_at (Some (mkdate 2024 1 5)) None "b" in
  ~ precedes undated dated (sorted_entries [undated; dated]).
Proof.
  intros undated dated.
  destruct (table_order [undated; dated]) as (_ & _ & _ & H & _).
  apply (H undated dated (mkdate 2024 1 5)); [reflexivity | reflexivity |].
  unfold date_lt, date_max. simpl. lia.
Defined.

(** C5 as stated fails: an entry without a date is keyed 9999-12-31, so
    it comes before an entry dated 9999-12-31 of a later time. *)
Lemma absent_date_before_dated :
  let undated := entry_at None (Some "00:00") "a" in
  let dated := entry_at (Some date_max) (Some "23:59") "b" in
  transaction_date undated = None
  /\ transaction_date dated = Some (mkdate 9999 12 31)
  /\ new_date 9999 12 31 = Ok date_max
  /\ sorted_entries [dated; undated] = [undated; dated]
  /\ precedes undated dated (sorted_entries [dated; undated]).
Proof.
  repeat split; try reflexivity.
  exists [], [], []. reflexivity.
Qed.

(** ** The two computations of the totals *)






(** The fuel of [pairwise_sum] does not matter once it reaches the
    length of the run. *)
Lemma pairwise_sum_fuel (f1 f2 : nat) (xs : list float) :
  (length xs <= f1)%nat -> (length xs <= f2)%nat -> pairwise_sum f1 xs = pairwise_sum f2 xs.
Proof.
  revert f2 xs. induction f1 as [|f1 IH]; intros f2 xs H1 H2.
  - destruct xs; [|cbn in H1; lia]. destruct f2; reflexivity.
  - destruct f2 as [|f2]; [destruct xs; [reflexivity | cbn in H2; lia]|].
    cbn [pairwise_sum].
    destruct (length xs <? 8)%nat; [reflexivity|].
    destruct (length xs <=? 128)%nat eqn:E; [reflexivity|].
    apply Nat.leb_gt in E.
    set (n := length xs) in *. set (n2 := (n / 2 - (n / 2) mod 8)%nat).
    assert (Hhalf : (n / 2 < n)%nat) by (apply Nat.div_lt; lia).
    assert (Hmod : ((n / 2) mod 8 < 8)%nat) by (apply Nat.mod_upper_bound; lia).
    assert (H64 : (64 <= n / 2)%nat) by (apply Nat.div_le_lower_bound; lia).
    assert (Hn2 : (0 < n2 < n)%nat) by (unfold n2; lia).
    rewrite (IH f2 (firstn n2 xs)), (IH f2 (skipn n2 xs)); try reflexivity;
      rewrite ?length_firstn, ?length_skipn; fold n; lia.
Qed.


(** The Total cells under a mask computed row by row. *)
Lemma loc_total_filter (f : row -> bool) (df : list row) :
  loc_total (map f df) df = map Total (List.filter f df).
Proof.
  unfold loc_total. induction df as [|r df IH]; [reflexivity|].
  cbn [map combine List.filter fst]. destruct (f r); cbn [map snd]; rewrite IH; reflexivity.
Qed.

(** The subtotal of a frame that has rows: the accessor's check, then
    the sum over the rows of the currency. *)
Lemma frame_subtotal_rows (code : string) (df : list row) :
  df <> [] ->
  frame_subtotal code df =
    if str_refused (map Currency df) then Raise AttributeError
    else bind (astype_float
                 (map (fun r => fillna0 (Total r))
                    (List.filter (fun r => cell_is (cell_upper (Currency r)) code) df)))
           (fun xs => Ok (series_sum xs)).
Proof.
  intros Hne. unfold frame_subtotal, str_upper.
  destruct df as [|r0 df0]; [congruence|]. set (df := r0 :: df0).
  destruct (str_refused (map Currency df)); [reflexivity|]. cbn [bind].
  rewrite !map_map.
  rewrite (loc_total_filter (fun r => cell_is (cell_upper (Currency r)) code) df), map_map.
  reflexivity.
Qed.




Lemma rate_or_one_truthy (rate : float) :
  truthy_float rate = true -> rate_or_one rate = rate.
Proof. unfold rate_or_one. intros ->. reflexivity. Qed.

(** A rate the header class accepts is not zero. *)
Lemma fx_valid_truthy (h : ReportHeader) :
  fx_valid h = true -> truthy_float (fx_usd_to_mxn h) = true.
Proof.
  unfold fx_valid, truthy_float. rewrite leb_spec, FloatAxioms.eqb_spec.
  set (c := Prim2SF 0.0001). vm_compute in c. subst c.
  change (Prim2SF 0) with (S754_zero false).
  destruct (Prim2SF (fx_usd_to_mxn h)) as [s | s | | s m e]; try destruct s; cbn; congruence.
Qed.

(** The aggregator's rule, for every rate: no exception, and a rate of
    zero adds nothing to the USD total. *)
Lemma aggregate_rule (entries : list ExpenseEntry) (rate : float) :
  aggregate entries rate =
    Ok {| usd_sub := subtotal "USD" entries;
          mxn_sub := subtotal "MXN" entries;
          total_usd := (subtotal "USD" entries
                        + (if truthy_float rate then subtotal "MXN" entries / rate else 0))%float;
          total_mxn := (subtotal "MXN" entries + subtotal "USD" entries * rate)%float |}.
Proof.
  unfold aggregate. destruct (truthy_float rate) eqn:E; [|reflexivity].
  rewrite (py_div_truthy _ _ E). reflexivity.
Qed.

(** The sheet's rule, on the subtotals of its frame. *)
Lemma totals_sheet_rule (df : list row) (header : ReportHeader) (u m : float) :
  frame_subtotal "USD" df = Ok u ->
  frame_subtotal "MXN" df = Ok m ->
  totals_sheet df header =
    Ok {| usd_sub := u; mxn_sub := m;
          total_usd := (u + m / rate_or_one (fx_usd_to_mxn header))%float;
          total_mxn := (m + u * rate_or_one (fx_usd_to_mxn header))%float |}.
Proof.
  intros Hu Hm. unfold totals_sheet. rewrite Hu, Hm. cbn [bind].
  rewrite py_div_truthy; [reflexivity|].
  unfold rate_or_one. destruct (truthy_float (fx_usd_to_mxn header)) eqn:E; [exact E | reflexivity].
Qed.




(** ** Currency code normaliser *)

Lemma currency_symbol_default (s : string) :
  match currency_symbols !! s with
  | Some code => code
  | None => "USD"
  end = "USD".
Proof.
  unfold currency_symbols. destruct (decide (s = "$")) as [-> | Hne].
  - rewrite lookup_singleton_eq. reflexivity.
  - rewrite lookup_singleton_ne by congruence. reflexivity.
Qed.

(** C8, as amended. A null or empty (false) value gives USD. Otherwise
    the text is upper-cased and trimmed first: when what is left is one
    character, the dollar sign or any other, the code is USD; when it is
    two characters or more it is the code, of whatever length. *)
Theorem norm_currency_rules (value : pyval) :
  (truthy value = false -> _norm_currency value = "USD")
  /\ (truthy value = true ->
      String.length (strip (upper (py_str value))) = 1%nat ->
      _norm_currency value = "USD")
  /\ (truthy value = true ->
      (2 <= String.length (strip (upper (py_str value))))%nat ->
      _norm_currency value = strip (upper (py_str value)))
  /\ _norm_currency PyNone = "USD"
  /\ _norm_currency (PyStr EmptyString) = "USD"
  /\ _norm_currency (PyStr "$") = "USD".
Proof.
  repeat split; try reflexivity.
  - intros H. unfold _norm_currency. rewrite H. reflexivity.
  - intros H Hlen. unfold _norm_currency. rewrite H, Hlen. cbn [negb Nat.eqb].
    apply currency_symbol_default.
  - intros H Hlen. unfold _norm_currency. rewrite H. cbn [negb].
    destruct (Nat.eqb_spec (String.length (strip (upper (py_str value)))) 1); [lia | reflexivity].
Qed.

Lemma norm_currency_rules_witness :
  _norm_currency (PyStr " mxn ") = "MXN".
Proof.
  apply (norm_currency_rules (PyStr " mxn ")); [reflexivity | vm_compute; lia].
Defined.

(** C8 as stated fails: an input longer than one character is not
    always given back upper-cased and trimmed; a padded dollar sign
    becomes USD. *)
Lemma norm_currency_padded_symbol :
  (1 < String.length " $ ")%nat
  /\ strip (upper " $ ") = "$"
  /\ _norm_currency (PyStr " $ ") = "USD"
  /\ _norm_currency (PyStr " $ ") <> strip (upper " $ ").
Proof.
  vm_compute. repeat split; try reflexivity; [lia | discriminate].
Qed.

(** ** Amount normaliser *)

(** No comma is left in the text handed to [float], and nothing else
    is taken out. *)
Lemma remove_char_spec (c : ascii) (s : string) :
  list_ascii_of_string (remove_char c s)
  = List.filter (fun a => negb (Ascii.eqb a c)) (list_ascii_of_string s).
Proof.
  induction s as [|a s IH]; [reflexivity|].
  simpl. destruct (Ascii.eqb a c); simpl; rewrite IH; reflexivity.
Qed.

(** C9. For every raw amount the normaliser takes the commas out of
    the value's text and reads the rest as a float; a null value, or a
    text that is no float, gives absent; no input makes it raise. *)
Theorem norm_float_total (value : pyval) :
  (exists r, _norm_float value = Ok r)
  /\ _norm_float PyNone = Ok None
  /\ (value <> PyNone ->
      _norm_float value =
        Ok (match py_float (remove_char "," (py_str value)) with
            | Ok x => Some x
            | Raise _ => None
            end))
  /\ (forall s, ~ In ","%char (list_ascii_of_string (remove_char "," s)))
  /\ _norm_float (PyStr "1,234.56") = Ok (Some 1234.56%float)
  /\ _norm_float (PyStr "12 pesos") = Ok None.
Proof.
  assert (H : value <> PyNone ->
      _norm_float value =
        Ok (match py_float (remove_char "," (py_str value)) with
            | Ok x => Some x
            | Raise _ => None
            end)).
  { intros Hne. destruct value; try congruence; unfold _norm_float;
      destruct (py_float _); reflexivity. }
  split; [|split; [|split; [|split; [|split]]]].
  - destruct value; try (rewrite H by congruence; eexists; reflexivity).
    eexists; reflexivity.
  - reflexivity.
  - exact H.
  - intros s Hin. rewrite remove_char_spec in Hin.
    apply List.filter_In in Hin as [_ Hin]. rewrite Ascii.eqb_refl in Hin. discriminate.
  - vm_compute. reflexivity.
  - vm_compute. reflexivity.
Qed.

(** ** Time normaliser *)

Lemma isdecimal_range (c : ascii) : isdecimal c = true -> (48 <= ord c <= 57)%N.
Proof.
  unfold isdecimal, in_range. intros H. apply andb_true_iff in H as [H1 H2].
  apply N.leb_le in H1, H2. split; assumption.
Qed.

Lemma isdecimal_neq (c x : ascii) :
  isdecimal c = true -> isdecimal x = false -> Ascii.eqb c x = false.
Proof.
  intros Hc Hx. destruct (Ascii.eqb_spec c x) as [-> | _]; [congruence | reflexivity].
Qed.

Lemma isdecimal_not_space (c : ascii) : isdecimal c = true -> isspace_num c = false.
Proof.
  intros H. apply isdecimal_range in H. unfold isspace_num, in_range.
  destruct (N.leb_spec 9 (ord c)), (N.leb_spec (ord c) 13),
    (N.eqb_spec (ord c) 32), (N.eqb_spec (ord c) 133), (N.eqb_spec (ord c) 160);
    simpl; try reflexivity; lia.
Qed.

Lemma isdecimal_isdigit (s : string) : isdecimal_str s = true -> isdigit s = true.
Proof.
  destruct s as [|c s]; [discriminate|]. unfold isdecimal_str, isdigit.
  generalize (String c s). clear. intros s. induction s as [|a s IH]; [reflexivity|].
  simpl. intros H. apply andb_true_iff in H as [Ha Hs].
  rewrite (IH Hs). unfold isdigit_char. rewrite Ha. reflexivity.
Qed.

Lemma rstrip_num_decimal (s : string) : all_chars isdecimal s = true -> rstrip_num s = s.
Proof.
  induction s as [|c s IH]; [reflexivity|].
  simpl. intros H. apply andb_true_iff in H as [Hc Hs]. rewrite (IH Hs).
  destruct s; [rewrite (isdecimal_not_space c Hc)|]; reflexivity.
Qed.

Lemma strip_num_decimal (s : string) : all_chars isdecimal s = true -> strip_num s = s.
Proof.
  intros H. unfold strip_num.
  assert (lstrip_num s = s) as ->.
  { destruct s as [|c s]; [reflexivity|]. simpl in *.
    apply andb_true_iff in H as [Hc _]. rewrite (isdecimal_not_space c Hc). reflexivity. }
  apply rstrip_num_decimal, H.
Qed.

Lemma take_sign_decimal (c : ascii) (s : string) :
  isdecimal c = true -> take_sign (String c s) = (false, String c s).
Proof.
  destruct c as [[] [] [] [] [] [] [] []]; intros H; try discriminate H; reflexivity.
Qed.

Lemma int_digits_decimal (s : string) (acc : Z) (prev : bool) :
  all_chars isdecimal s = true -> 0 <= acc ->
  (s <> EmptyString \/ prev = true) ->
  exists n, int_digits s acc prev = Some n /\ 0 <= n.
Proof.
  revert acc prev. induction s as [|c s IH]; intros acc prev Hall Hacc Hne.
  - destruct Hne as [Hne | ->]; [congruence|]. exists acc. split; [reflexivity | exact Hacc].
  - simpl in *. apply andb_true_iff in Hall as [Hc Hs].
    rewrite (isdecimal_neq c "_" Hc eq_refl).
    unfold digit_val. rewrite Hc.
    apply IH; [exact Hs | | right; reflexivity].
    apply isdecimal_range in Hc. lia.
Qed.

(** [int] reads a text of decimal digits within the interpreter's
    limit, and the result is not negative. *)
Lemma py_int_decimal (s : string) :
  isdecimal_str s = true -> count_digits s <= int_max_str_digits ->
  exists n, py_int s = Ok n /\ 0 <= n.
Proof.
  destruct s as [|c s]; [discriminate|]. unfold isdecimal_str. intros H Hlim.
  unfold py_int. rewrite (strip_num_decimal _ H).
  pose proof H as H'. simpl in H'. apply andb_true_iff in H' as [Hc _].
  rewrite (take_sign_decimal c s Hc).
  destruct (int_digits_decimal (String c s) 0 false H) as (n & Hn & Hpos); [lia | left; congruence |].
  rewrite Hn. apply Z.ltb_ge in Hlim. rewrite Hlim.
  exists n. split; [reflexivity | exact Hpos].
Qed.

Lemma hhmm_valid_all :
  forallb (fun h => forallb (fun m => valid_hhmm (hhmm (Z.of_nat h) (Z.of_nat m))) (seq 0 60))
    (seq 0 24) = true.
Proof. vm_compute. reflexivity. Qed.

(** An hour below 24 and a minute below 60 are written as a valid
    [HH:MM]. *)
Lemma hhmm_valid (h m : Z) : 0 <= h < 24 -> 0 <= m < 60 -> valid_hhmm (hhmm h m) = true.
Proof.
  intros Hh Hm. pose proof hhmm_valid_all as H.
  rewrite forallb_forall in H.
  specialize (H (Z.to_nat h)). rewrite forallb_forall in H.
  specialize (fun pf => H pf (Z.to_nat m)).
  rewrite !Z2Nat.id in H by lia.
  apply H; apply in_seq; lia.
Qed.

(** On decimal digits within the interpreter's limit the guard is
    sound: when the trimmed text has at least two colon-separated parts
    and the first two are decimal digits, of at most 4300 digits each,
    the result is [HH:MM] with the hour modulo 24 and the minute modulo
    60, both in range. *)
Lemma norm_time_decimal (value : pyval) (h m : string) (rest : list string) :
  truthy value = true ->
  split ":" (strip (py_str value)) = h :: m :: rest ->
  isdecimal_str h = true -> isdecimal_str m = true ->
  count_digits h <= int_max_str_digits -> count_digits m <= int_max_str_digits ->
  exists hh mm,
    py_int h = Ok hh /\ py_int m = Ok mm
    /\ _norm_time value = Ok (Some (hhmm (hh mod 24) (mm mod 60)))
    /\ 0 <= hh mod 24 < 24 /\ 0 <= mm mod 60 < 60
    /\ valid_hhmm (hhmm (hh mod 24) (mm mod 60)) = true.
Proof.
  intros Ht Hs Hh Hm Lh Lm.
  destruct (py_int_decimal h Hh Lh) as (hh & Ehh & _).
  destruct (py_int_decimal m Hm Lm) as (mm & Emm & _).
  exists hh, mm.
  assert (R1 : 0 <= hh mod 24 < 24) by (apply Z.mod_pos_bound; lia).
  assert (R2 : 0 <= mm mod 60 < 60) by (apply Z.mod_pos_bound; lia).
  repeat split; try assumption; try lia.
  - unfold _norm_time. rewrite Ht, Hs. cbn [negb length firstn forallb nth Nat.leb andb].
    rewrite (isdecimal_isdigit h Hh), (isdecimal_isdigit m Hm). cbn [andb].
    rewrite Ehh, Emm. reflexivity.
  - apply hhmm_valid; assumption.
Qed.

(** Every input that does not pass the guard gives absent. *)
Lemma norm_time_absent (value : pyval) :
  truthy value = false
  \/ (2 <=? length (split ":" (strip (py_str value))))%nat
     && forallb isdigit (firstn 2 (split ":" (strip (py_str value)))) = false ->
  _norm_time value = Ok None.
Proof.
  unfold _norm_time. intros [-> | H]; [reflexivity|].
  destruct (truthy value); [|reflexivity]. cbn [negb]. rewrite H. reflexivity.
Qed.

(** Whatever time the normaliser returns is a valid [HH:MM]: the hour
    is in 0..23 and the minute in 0..59. *)
Lemma norm_time_result_valid (value : pyval) (t : string) :
  _norm_time value = Ok (Some t) -> valid_hhmm t = true.
Proof.
  unfold _norm_time. destruct (negb (truthy value)); [discriminate|].
  destruct (_ && _); [|discriminate].
  destruct (py_int (nth 0 _ _)) as [h|]; [|discriminate]. cbn [bind].
  destruct (py_int (nth 1 _ _)) as [m|]; [|discriminate]. cbn [bind].
  intros [= <-]. apply hhmm_valid; apply Z.mod_pos_bound; lia.
Qed.

(** C7 fails on the code. The guard of the time normaliser is
    [str.isdigit], which accepts the superscript two (U+00B2); [int]
    does not read it, and the normaliser raises where the claim has it
    return a time or absent. Nothing catches the exception: the
    normalisation of the whole receipt raises. *)
Theorem norm_time_superscript_raises :
  let text := String "178" ":00" in
  split ":" (strip text) = [String "178" EmptyString; "00"]
  /\ isdigit (String "178" EmptyString) = true
  /\ py_int (String "178" EmptyString) = Raise ValueError
  /\ _norm_time (PyStr text) = Raise ValueError
  /\ normalize_fields {[ "transaction_time" := PyStr text ]} "receipt.png" = Raise ValueError
  /\ _norm_time (PyStr "25:61") = Ok (Some "01:01").
Proof. vm_compute. repeat split; reflexivity. Qed.

(** The guard misses a second family of texts: a part of decimal
    digits longer than the interpreter converts to an integer passes
    it, and [int] raises on the part. *)
Example norm_time_long_digits_raises :
  let hour := string_of_list_ascii (repeat "1"%char 4301) in
  isdigit hour = true
  /\ py_int hour = Raise ValueError
  /\ _norm_time (PyStr (hour +:+ ":00")) = Raise ValueError.
Proof. vm_compute. repeat split; reflexivity. Qed.

(** ** Date normaliser *)

Lemma first_some_Some {A B : Type} (f : A -> option B) (l : list A) (b : B) :
  first_some f l = Some b <->
  exists pre a post,
    l = pre ++ a :: post /\ Forall (fun x => f x = None) pre /\ f a = Some b.
Proof.
  induction l as [|x l IH]; simpl.
  - split; [discriminate|]. intros (pre & a & post & H & _). destruct pre; discriminate.
  - destruct (f x) as [b'|] eqn:E.
    + split.
      * intros [= ->]. exists [], x, l. repeat split; [constructor | exact E].
      * intros (pre & a & post & H & Hpre & Ha). destruct pre as [|p pre]; simpl in H.
        -- injection H as -> ->. congruence.
        -- injection H as -> ->. inversion Hpre; subst. congruence.
    + rewrite IH. split.
      * intros (pre & a & post & -> & Hpre & Ha). exists (x :: pre), a, post.
        repeat split; [constructor; assumption | exact Ha].
      * intros (pre & a & post & H & Hpre & Ha). destruct pre as [|p pre]; simpl in H.
        -- injection H as -> ->. congruence.
        -- injection H as -> ->. inversion Hpre; subst. exists pre, a, post. auto.
Qed.

Lemma first_some_None {A B : Type} (f : A -> option B) (l : list A) :
  first_some f l = None <-> Forall (fun x => f x = None) l.
Proof.
  induction l as [|x l IH]; simpl.
  - split; [constructor | reflexivity].
  - destruct (f x) eqn:E.
    + split; [discriminate|]. intros H. inversion H; subst. congruence.
    + rewrite IH. split; [constructor; assumption|]. intros H. inversion H; assumption.
Qed.

Lemma try_formats_first (s : string) (fmts : list string) :
  try_formats s fmts = Ok (first_some (format_date s) fmts).
Proof.
  induction fmts as [|fmt fmts IH]; [reflexivity|].
  simpl. unfold format_date at 1. destruct (strptime s fmt); simpl; [reflexivity | exact IH].
Qed.

(** The normaliser as one expression: never an exception. *)
Lemma norm_date_eq (value : pyval) :
  _norm_date value =
    Ok (if truthy value then
          match iso_date (py_str value) with
          | Some d => Some d
          | None => first_some (format_date (py_str value)) date_formats
          end
        else None).
Proof.
  unfold _norm_date, iso_date. destruct (truthy value); [|reflexivity]. cbn [negb].
  destruct (fromisoformat (py_str value)); cbn [bind try_except]; [reflexivity|].
  apply try_formats_first.
Qed.

(** C6. For every raw date value: a null (or otherwise false) value is
    absent; else the ISO parse is tried, and its date returned; else
    the patterns YYYY-MM-DD, DD/MM/YYYY, MM/DD/YYYY, DD-MM-YYYY,
    MM-DD-YYYY are tried in that order and the date of the first one
    that parses is returned; when none parses the result is absent.
    So 05/03/2024, which both DD/MM/YYYY and MM/DD/YYYY parse, is the
    fifth of March. *)
Theorem norm_date_order (value : pyval) :
  (forall d,
     _norm_date value = Ok (Some d) <->
     truthy value = true
     /\ (iso_date (py_str value) = Some d
         \/ (iso_date (py_str value) = None
             /\ exists pre fmt post,
                 date_formats = pre ++ fmt :: post
                 /\ Forall (fun f => format_date (py_str value) f = None) pre
                 /\ format_date (py_str value) fmt = Some d)))
  /\ (_norm_date value = Ok None <->
      truthy value = false
      \/ (iso_date (py_str value) = None
          /\ Forall (fun f => format_date (py_str value) f = None) date_formats))
  /\ (exists r, _norm_date value = Ok r)
  /\ date_formats = ["%Y-%m-%d"; "%d/%m/%Y"; "%m/%d/%Y"; "%d-%m-%Y"; "%m-%d-%Y"]
  /\ _norm_date PyNone = Ok None
  /\ _norm_date (PyStr "05/03/2024") = Ok (Some (mkdate 2024 3 5))
  /\ format_date "05/03/2024" "%m/%d/%Y" = Some (mkdate 2024 5 3).
Proof.
  split; [|split; [|split; [|split; [|split; [|split]]]]].
  - intros d. rewrite norm_date_eq. destruct (truthy value).
    + destruct (iso_date (py_str value)) as [d'|] eqn:E.
      * split.
        -- intros [= ->]. split; [reflexivity | left; reflexivity].
        -- intros [_ [H | [H _]]]; congruence.
      * split.
        -- intros H.
           assert (H' : first_some (format_date (py_str value)) date_formats = Some d)
             by (injection H as H'; exact H').
           apply first_some_Some in H'.
           split; [reflexivity | right; split; [reflexivity | exact H']].
        -- intros [_ [H | [_ H]]]; [discriminate|]. apply first_some_Some in H. rewrite H. reflexivity.
    + split; [discriminate | intros [H _]; discriminate].
  - rewrite norm_date_eq. destruct (truthy value).
    + destruct (iso_date (py_str value)) as [d'|] eqn:E.
      * split; [discriminate | intros [H | [H _]]; discriminate].
      * split.
        -- intros H.
           assert (H' : first_some (format_date (py_str value)) date_formats = None)
             by (injection H as H'; exact H').
           apply first_some_None in H'. right. split; [reflexivity | exact H'].
        -- intros [H | [_ H]]; [discriminate|]. apply first_some_None in H. rewrite H. reflexivity.
    + split; [left; reflexivity | reflexivity].
  - rewrite norm_date_eq. eexists. reflexivity.
  - reflexivity.
  - reflexivity.
  - vm_compute. reflexivity.
  - vm_compute. reflexivity.
Qed.

(** ** ISO date-times *)

Lemma digit_cases (k : Z) :
  0 <= k <= 9 ->
  k = 0 \/ k = 1 \/ k = 2 \/ k = 3 \/ k = 4 \/ k = 5 \/ k = 6 \/ k = 7 \/ k = 8 \/ k = 9.
Proof. lia. Qed.

Lemma digit_val_digit_char (k : Z) : 0 <= k <= 9 -> digit_val (digit_char k) = Some k.
Proof.
  intros H. apply digit_cases in H.
  repeat (destruct H as [-> | H]; [reflexivity|]). subst. reflexivity.
Qed.

Lemma digit_char_not_sign (k : Z) :
  0 <= k <= 9 ->
  Ascii.eqb (digit_char k) "-" = false /\ Ascii.eqb (digit_char k) "+" = false.
Proof.
  intros H. apply digit_cases in H.
  repeat (destruct H as [-> | H]; [split; reflexivity|]). subst. split; reflexivity.
Qed.

Lemma two_digits_pad2 (n : Z) (r : string) :
  0 <= n < 100 -> two_digits (pad2 n +:+ r) = Some (n, r).
Proof.
  intros H. unfold pad2. cbv [String.append]. unfold two_digits.
  rewrite !digit_val_digit_char by (Z.div_mod_to_equations; lia).
  f_equal. f_equal. Z.div_mod_to_equations. lia.
Qed.

Lemma four_digits_pad4 (n : Z) (r : string) :
  0 <= n < 10000 -> four_digits (pad4 n +:+ r) = Some (n, r).
Proof.
  intros H. unfold pad4, four_digits.
  assert (E : (pad2 (n / 100) +:+ pad2 (n mod 100)) +:+ r
              = pad2 (n / 100) +:+ (pad2 (n mod 100) +:+ r)) by reflexivity.
  rewrite E, two_digits_pad2 by (Z.div_mod_to_equations; lia).
  rewrite two_digits_pad2 by (Z.div_mod_to_equations; lia).
  f_equal. f_equal. Z.div_mod_to_equations. lia.
Qed.

Lemma valid_date_range (y m d : Z) :
  valid_date y m d = true -> 1 <= y <= 9999 /\ 1 <= m <= 12 /\ 1 <= d <= 31.
Proof.
  unfold valid_date. rewrite !andb_true_iff, !Z.leb_le. intros [[[[[? ?] ?] ?] ?] Hd].
  assert (days_in_month y m <= 31).
  { unfold days_in_month.
    destruct (m =? 2); [destruct (is_leap y); lia|].
    destruct ((m =? 4) || (m =? 6) || (m =? 9) || (m =? 11)); lia. }
  lia.
Qed.

Lemma parse_isoformat_date_iso (y m d : Z) (r : string) :
  valid_date y m d = true ->
  parse_isoformat_date (date_isoformat (mkdate y m d) +:+ r) = Some (y, m, d, r).
Proof.
  intros H. apply valid_date_range in H as (Hy & Hm & Hd).
  unfold parse_isoformat_date, date_isoformat. cbn [year month day].
  assert (E : (pad4 y +:+ "-" +:+ pad2 m +:+ "-" +:+ pad2 d) +:+ r
              = pad4 y +:+ String "-" (pad2 m +:+ String "-" (pad2 d +:+ r))) by reflexivity.
  rewrite E, four_digits_pad4 by lia. cbn [expect Ascii.eqb Bool.eqb].
  rewrite two_digits_pad2 by lia. cbn [expect Ascii.eqb Bool.eqb].
  rewrite two_digits_pad2 by lia. reflexivity.
Qed.

Lemma split_tz_pad2 (n : Z) (r : string) :
  0 <= n < 100 ->
  split_tz (pad2 n +:+ r) = (pad2 n +:+ fst (split_tz r), snd (split_tz r)).
Proof.
  intros H. unfold pad2. cbv [String.append]. cbn [split_tz].
  destruct (digit_char_not_sign (n / 10 mod 10)) as [-> ->]; [Z.div_mod_to_equations; lia|].
  destruct (digit_char_not_sign (n mod 10)) as [-> ->]; [Z.div_mod_to_equations; lia|].
  destruct (split_tz r). reflexivity.
Qed.

Lemma parse_isoformat_time_hms (h mi s : Z) :
  0 <= h < 100 -> 0 <= mi < 100 -> 0 <= s < 100 ->
  parse_isoformat_time (pad2 h +:+ ":" +:+ pad2 mi +:+ ":" +:+ pad2 s)
  = Some (h, mi, s, 0, None).
Proof.
  intros Hh Hm Hs. unfold parse_isoformat_time.
  assert (E : split_tz (pad2 h +:+ ":" +:+ pad2 mi +:+ ":" +:+ pad2 s)
              = (pad2 h +:+ ":" +:+ pad2 mi +:+ ":" +:+ pad2 s +:+ EmptyString, None)).
  { rewrite split_tz_pad2 by assumption.
    change (":" +:+ pad2 mi +:+ ":" +:+ pad2 s) with (String ":" (pad2 mi +:+ String ":" (pad2 s +:+ ""))).
    cbn [split_tz Ascii.eqb Bool.eqb].
    rewrite split_tz_pad2 by assumption. cbn [split_tz Ascii.eqb Bool.eqb fst snd].
    rewrite split_tz_pad2 by assumption. reflexivity. }
  rewrite E. unfold parse_hh_mm_ss_ff.
  rewrite two_digits_pad2 by assumption.
  change (":" +:+ pad2 mi +:+ ":" +:+ pad2 s +:+ "") with (String ":" (pad2 mi +:+ String ":" (pad2 s +:+ ""))).
  cbv iota beta. rewrite two_digits_pad2 by assumption.
  cbv iota beta. rewrite two_digits_pad2 by assumption. reflexivity.
Qed.

(** C10. A date-time text in ISO form, the date and a time of day
    joined by T (or any one character), is accepted by the date
    normaliser, which returns the calendar date alone. *)
Theorem norm_date_iso_datetime (y m d h mi s : Z) (sep : ascii) :
  valid_date y m d = true ->
  0 <= h < 24 -> 0 <= mi < 60 -> 0 <= s < 60 ->
  fromisoformat (datetime_isoformat (mkdate y m d) sep h mi s)
  = Ok (mkdatetime (mkdate y m d) h mi s 0 None)
  /\ _norm_date (PyStr (datetime_isoformat (mkdate y m d) sep h mi s))
     = Ok (Some (mkdate y m d)).
Proof.
  intros Hv Hh Hm Hs.
  assert (F : fromisoformat (datetime_isoformat (mkdate y m d) sep h mi s)
              = Ok (mkdatetime (mkdate y m d) h mi s 0 None)).
  { unfold fromisoformat, datetime_isoformat.
    rewrite (parse_isoformat_date_iso y m d _ Hv).
    rewrite parse_isoformat_time_hms by lia.
    unfold new_datetime, new_date. rewrite Hv. cbn [bind].
    assert ((0 <=? h) && (h <? 24) && (0 <=? mi) && (mi <? 60) && (0 <=? s) && (s <? 60)
            && (0 <=? 0) && (0 <? 1000000) && true = true) as ->; [|reflexivity].
    rewrite !andb_true_iff, !Z.leb_le, !Z.ltb_lt. lia. }
  split; [exact F|].
  rewrite norm_date_eq. unfold iso_date. cbn [py_str]. rewrite F.
  assert (truthy (PyStr (datetime_isoformat (mkdate y m d) sep h mi s)) = true) as ->; [|reflexivity].
  reflexivity.
Qed.

Lemma norm_date_iso_datetime_witness :
  _norm_date (PyStr "2024-03-05T14:30:00") = Ok (Some (mkdate 2024 3 5)).
Proof.
  apply (norm_date_iso_datetime 2024 3 5 14 30 0 "T"); [reflexivity | lia | lia | lia].
Defined.

(** * Further properties *)

(** ** Rate tables and conversion *)

(** X1. Whatever the exchange service answered, the table
    [fetch_rates] returns gives the base the rate 1.0; the other rates
    of an answer are passed on as they are, and without an answer a
    base other than USD and MXN gets the table of that one entry. *)
Theorem fetch_rates_base (answer : res (option (gmap string float))) (base : string) :
  fetch_rates answer base !! base = Some 1%float
  /\ (forall rates k, answer = Ok (Some rates) -> k <> base ->
        fetch_rates answer base !! k = rates !! k)
  /\ (forall e k, answer = Raise e -> base <> "USD" -> base <> "MXN" -> k <> base ->
        fetch_rates answer base !! k = None).
Proof.
  split; [|split].
  - destruct answer as [[rates|]|e]; cbn [fetch_rates].
    + apply lookup_insert_eq.
    + apply lookup_insert_eq.
    + unfold fallback_rates.
      destruct (String.eqb_spec base "USD") as [-> | _]; [reflexivity|].
      destruct (String.eqb_spec base "MXN") as [-> | _]; [reflexivity|].
      apply lookup_insert_eq.
  - intros rates k -> Hk. cbn [fetch_rates]. apply lookup_insert_ne. congruence.
  - intros e k -> Hu Hm Hk. cbn [fetch_rates]. unfold fallback_rates.
    apply String.eqb_neq in Hu, Hm. rewrite Hu, Hm.
    rewrite lookup_insert_ne by congruence. apply lookup_empty.
Qed.

(** X2. A conversion between codes that are the same up to case gives
    the amount back, whatever the table holds and whether or not the
    code is in it (the empty table included): no rate is read. *)
Theorem convert_same_code_identity
    (amount : float) (from_ccy to_ccy : string) (rates : gmap string float) :
  upper from_ccy = upper to_ccy ->
  convert amount from_ccy to_ccy rates = Ok amount.
Proof.
  intros Heq. unfold convert. rewrite Heq.
  destruct (dict_has rates (upper to_ccy)); cbn [negb orb]; [|reflexivity].
  rewrite String.eqb_refl. reflexivity.
Qed.

Lemma convert_same_code_identity_witness :
  convert 250%float "mxn" "MXN" ∅ = Ok 250%float.
Proof.
  apply (convert_same_code_identity 250%float "mxn" "MXN" ∅). reflexivity.
Defined.

(** X3. The only exception a conversion raises is the division by
    zero, never a missing key, and it raises exactly when both codes
    are in the table, differ, and the rate of the source is zero;
    with a source rate that is not zero the result is the amount
    divided by the source rate, times the target rate. *)
Theorem convert_outcomes
    (amount : float) (from_ccy to_ccy : string) (rates : gmap string float) :
  (forall e, convert amount from_ccy to_ccy rates = Raise e <->
     e = ZeroDivisionError
     /\ exists rf, rates !! upper from_ccy = Some rf
                   /\ (rf =? 0)%float = true
                   /\ is_Some (rates !! upper to_ccy)
                   /\ upper from_ccy <> upper to_ccy)
  /\ (forall rf rt,
        rates !! upper from_ccy = Some rf -> rates !! upper to_ccy = Some rt ->
        upper from_ccy <> upper to_ccy -> (rf =? 0)%float = false ->
        convert amount from_ccy to_ccy rates = Ok (amount / rf * rt)%float).
Proof.
  split.
  - intros e. unfold convert, dict_has, dict_get.
    destruct (rates !! upper from_ccy) as [rf|] eqn:Ef; cbn [negb orb].
    + destruct (rates !! upper to_ccy) as [rt|] eqn:Et; cbn [negb orb].
      * destruct (String.eqb_spec (upper from_ccy) (upper to_ccy)) as [Heq | Hne].
        -- split; [discriminate|]. intros (_ & rf' & _ & _ & _ & Hne). congruence.
        -- cbn [bind]. unfold py_div. destruct (rf =? 0)%float eqn:Ez; cbn [bind].
           ++ split.
              ** intros [= <-]. split; [reflexivity|]. exists rf. repeat split; eauto.
              ** intros [-> _]. reflexivity.
           ++ split; [discriminate|]. intros (_ & rf' & [= <-] & Hz & _). congruence.
      * split; [discriminate|]. intros (_ & rf' & _ & _ & [x Hx] & _). discriminate.
    + split; [discriminate|]. intros (_ & rf' & Hx & _). discriminate.
  - intros rf rt Hf Ht Hne Hz.
    rewrite (convert_known amount rates _ _ _ _ Hf Ht Hne). unfold py_div. rewrite Hz. reflexivity.
Qed.

(** ** Trimming and upper-casing *)

Lemma lstrip_head (s : string) :
  lstrip s = EmptyString \/ exists c t, lstrip s = String c t /\ isspace c = false.
Proof.
  induction s as [|c s IH]; [left; reflexivity|].
  simpl. destruct (isspace c) eqn:E; [exact IH|]. right. exists c, s. split; [reflexivity | exact E].
Qed.

Lemma rstrip_idem (s : string) : rstrip (rstrip s) = rstrip s.
Proof.
  induction s as [|c s IH]; [reflexivity|].
  cbn [rstrip]. destruct (rstrip s) as [|c' t'] eqn:E.
  - destruct (isspace c) eqn:Ec; [reflexivity|]. cbn [rstrip]. rewrite Ec. reflexivity.
  - cbn [rstrip] in *. rewrite IH. reflexivity.
Qed.

Lemma rstrip_head (c : ascii) (t : string) :
  isspace c = false -> exists t', rstrip (String c t) = String c t'.
Proof.
  intros Hc. cbn [rstrip]. destruct (rstrip t); [rewrite Hc|]; eexists; reflexivity.
Qed.

Lemma lstrip_strip (s : string) : lstrip (strip s) = strip s.
Proof.
  unfold strip. destruct (lstrip_head s) as [-> | (c & t & -> & Hc)]; [reflexivity|].
  destruct (rstrip_head c t Hc) as [t' ->]. cbn [lstrip]. rewrite Hc. reflexivity.
Qed.

(** Trimming a trimmed text changes nothing. *)
Lemma strip_idem (s : string) : strip (strip s) = strip s.
Proof.
  unfold strip at 1. rewrite lstrip_strip. unfold strip. apply rstrip_idem.
Qed.

Lemma lstrip_all_space (s : string) : all_chars isspace s = true -> lstrip s = EmptyString.
Proof.
  induction s as [|c s IH]; [reflexivity|]. simpl.
  intros H. apply andb_true_iff in H as [-> Hs]. exact (IH Hs).
Qed.

Lemma upper_app (a b : string) : upper (a +:+ b) = upper a +:+ upper b.
Proof.
  induction a as [|c a IH]; [reflexivity|].
  cbv [String.append] in *. cbn [upper]. fold String.append in *.
  rewrite IH. generalize (upper_char c) (upper a) (upper b). clear.
  intros x y z. induction x as [|c x IH]; [reflexivity|].
  cbv [String.append] in *. fold String.append in *. rewrite IH. reflexivity.
Qed.

Lemma upper_char_fixed (c : ascii) : all_chars upper_fixed (upper_char c) = true.
Proof. destruct c as [[] [] [] [] [] [] [] []]; reflexivity. Qed.

Lemma all_chars_app (p : ascii -> bool) (a b : string) :
  all_chars p (a +:+ b) = all_chars p a && all_chars p b.
Proof.
  induction a as [|c a IH]; [reflexivity|].
  cbv [String.append] in *. fold String.append in *. cbn [all_chars]. rewrite IH.
  apply andb_assoc.
Qed.

Lemma upper_all_fixed (s : string) : all_chars upper_fixed (upper s) = true.
Proof.
  induction s as [|c s IH]; [reflexivity|].
  cbn [upper]. rewrite all_chars_app, upper_char_fixed, IH. reflexivity.
Qed.

Lemma upper_of_fixed (s : string) : all_chars upper_fixed s = true -> upper s = s.
Proof.
  induction s as [|c s IH]; [reflexivity|].
  cbn [all_chars upper]. intros H. apply andb_true_iff in H as [Hc Hs].
  unfold upper_fixed in Hc. apply String.eqb_eq in Hc. rewrite Hc, (IH Hs). reflexivity.
Qed.

Lemma lstrip_all (p : ascii -> bool) (s : string) :
  all_chars p s = true -> all_chars p (lstrip s) = true.
Proof.
  induction s as [|c s IH]; [reflexivity|].
  intros H. cbn [lstrip]. destruct (isspace c); [|exact H].
  cbn [all_chars] in H. apply andb_true_iff in H as [_ Hs]. exact (IH Hs).
Qed.

Lemma rstrip_all (p : ascii -> bool) (s : string) :
  all_chars p s = true -> all_chars p (rstrip s) = true.
Proof.
  induction s as [|c s IH]; [reflexivity|].
  cbn [all_chars rstrip]. intros H. apply andb_true_iff in H as [Hc Hs].
  specialize (IH Hs). destruct (rstrip s).
  - destruct (isspace c); [reflexivity|]. cbn [all_chars]. rewrite Hc. reflexivity.
  - cbn [all_chars] in *. rewrite Hc, IH. reflexivity.
Qed.

(** Upper-casing is idempotent, and a trimmed upper-cased text is
    still upper-cased. *)
Lemma upper_strip_upper (s : string) : upper (strip (upper s)) = strip (upper s).
Proof.
  apply upper_of_fixed. unfold strip. apply rstrip_all, lstrip_all, upper_all_fixed.
Qed.

Lemma space_upper_fixed (c : ascii) : isspace c = true -> upper_char c = String c EmptyString.
Proof. destruct c as [[] [] [] [] [] [] [] []]; intros H; try discriminate H; reflexivity. Qed.

Lemma upper_all_space (s : string) : all_chars isspace s = true -> upper s = s.
Proof.
  induction s as [|c s IH]; [reflexivity|].
  cbn [all_chars upper]. intros H. apply andb_true_iff in H as [Hc Hs].
  rewrite (space_upper_fixed c Hc), (IH Hs). reflexivity.
Qed.

(** ** Text normaliser *)

(** What [lstrip] drops is white space in front of what it keeps. *)
Lemma lstrip_split (s : string) :
  exists l, s = l +:+ lstrip s /\ all_chars isspace l = true.
Proof.
  induction s as [|c s (l & Hl & Hs)]; [exists EmptyString; split; reflexivity|].
  cbn [lstrip]. destruct (isspace c) eqn:E.
  - exists (String c l). split.
    + cbv [String.append]; fold String.append. rewrite <- Hl. reflexivity.
    + cbn [all_chars]. rewrite E, Hs. reflexivity.
  - exists EmptyString. split; reflexivity.
Qed.

(** What [rstrip] drops is white space behind what it keeps. *)
Lemma rstrip_split (s : string) :
  exists r, s = rstrip s +:+ r /\ all_chars isspace r = true.
Proof.
  induction s as [|c s (r & Hr & Hs)]; [exists EmptyString; split; reflexivity|].
  cbn [rstrip]. destruct (rstrip s) as [|c' t'] eqn:E.
  - cbv [String.append] in Hr. subst r. destruct (isspace c) eqn:Ec.
    + exists (String c s). split; [reflexivity|]. cbn [all_chars]. rewrite Ec, Hs. reflexivity.
    + exists s. split; [reflexivity | exact Hs].
  - exists r. split; [|exact Hs].
    cbv [String.append]; fold String.append. cbv [String.append] in Hr; fold String.append in Hr.
    rewrite <- Hr. reflexivity.
Qed.

(** What [strip] keeps lies between two runs of white space. *)
Lemma strip_split (s : string) :
  exists l r, s = l +:+ (strip s +:+ r)
              /\ all_chars isspace l = true /\ all_chars isspace r = true.
Proof.
  destruct (lstrip_split s) as (l & Hl & Hls).
  destruct (rstrip_split (lstrip s)) as (r & Hr & Hrs).
  exists l, r. unfold strip. rewrite <- Hr. auto.
Qed.

(** [strip] leaves nothing exactly of a text of white space. *)
Lemma strip_empty_iff (s : string) :
  strip s = EmptyString <-> all_chars isspace s = true.
Proof.
  split.
  - intros H. destruct (strip_split s) as (l & r & Hs & Hl & Hr).
    rewrite H in Hs. rewrite Hs, all_chars_app, Hl. exact Hr.
  - intros H. unfold strip. rewrite (lstrip_all_space s H). reflexivity.
Qed.

(** X4. The text normaliser returns absent exactly for a null value
    and for a value whose text is empty or all white space. Any other
    value gives the text of the value without the white space in front
    of it and behind it: the result is not empty, neither begins nor
    ends with white space, the text of the value is the result between
    two runs of white space, and normalising the result again gives it
    back. *)
Theorem norm_str_trimmed (value : pyval) :
  (_norm_str value = None
   <-> value = PyNone \/ all_chars isspace (py_str value) = true)
  /\ (forall s, _norm_str value = Some s ->
        s <> EmptyString /\ lstrip s = s /\ rstrip s = s
        /\ (exists l r, py_str value = l +:+ (s +:+ r)
                        /\ all_chars isspace l = true /\ all_chars isspace r = true)
        /\ _norm_str (PyStr s) = Some s).
Proof.
  assert (H : forall t,
    ((if String.eqb (strip t) EmptyString then None else Some (strip t)) = None
     <-> all_chars isspace t = true)
    /\ (forall s, (if String.eqb (strip t) EmptyString then None else Some (strip t)) = Some s ->
          s <> EmptyString /\ lstrip s = s /\ rstrip s = s
          /\ (exists l r, t = l +:+ (s +:+ r)
                          /\ all_chars isspace l = true /\ all_chars isspace r = true)
          /\ _norm_str (PyStr s) = Some s)).
  { intros t. destruct (String.eqb_spec (strip t) EmptyString) as [E | E].
    - split; [|discriminate]. split; [intros _; apply strip_empty_iff, E | reflexivity].
    - split.
      + split; [discriminate|]. intros Hs. apply strip_empty_iff in Hs. contradiction.
      + intros s Hs. assert (Es : s = strip t) by (injection Hs as Hs'; symmetry; exact Hs').
        subst s. split; [exact E|]. split; [apply lstrip_strip|].
        split; [unfold strip; apply rstrip_idem|]. split; [apply strip_split|].
        unfold _norm_str. cbn [py_str]. rewrite strip_idem.
        apply String.eqb_neq in E. rewrite E. reflexivity. }
  destruct value as [| b | n | t | truth text].
  - split; [|discriminate]. split; [left; reflexivity | reflexivity].
  - destruct (H (py_str (PyBool b))) as [[H1 H2] H3]. split; [|exact H3].
    split; [intros E; right; exact (H1 E) | intros [E | E]; [discriminate E | exact (H2 E)]].
  - destruct (H (py_str (PyInt n))) as [[H1 H2] H3]. split; [|exact H3].
    split; [intros E; right; exact (H1 E) | intros [E | E]; [discriminate E | exact (H2 E)]].
  - destruct (H (py_str (PyStr t))) as [[H1 H2] H3]. split; [|exact H3].
    split; [intros E; right; exact (H1 E) | intros [E | E]; [discriminate E | exact (H2 E)]].
  - destruct (H (py_str (PyObj truth text))) as [[H1 H2] H3]. split; [|exact H3].
    split; [intros E; right; exact (H1 E) | intros [E | E]; [discriminate E | exact (H2 E)]].
Qed.

(** ** Currency code normaliser *)

Lemma strip_length_ne_1_fix (s : string) :
  String.length (strip (upper s)) <> 1%nat ->
  strip (upper s) <> EmptyString ->
  _norm_currency (PyStr (strip (upper s))) = strip (upper s).
Proof.
  intros Hlen Hne. unfold _norm_currency. cbn [truthy py_str].
  apply String.eqb_neq in Hne. rewrite Hne. cbn [negb].
  rewrite upper_strip_upper, strip_idem.
  destruct (Nat.eqb_spec (String.length (strip (upper s))) 1); [contradiction | reflexivity].
Qed.

(** X5. The code the normaliser returns never has exactly one
    character, has no white space at either end and is unchanged by
    upper-casing; unless it is empty, normalising it again gives it
    back. *)
Theorem norm_currency_shape (value : pyval) :
  String.length (_norm_currency value) <> 1%nat
  /\ strip (_norm_currency value) = _norm_currency value
  /\ upper (_norm_currency value) = _norm_currency value
  /\ (_norm_currency value <> EmptyString ->
      _norm_currency (PyStr (_norm_currency value)) = _norm_currency value).
Proof.
  assert (H : _norm_currency value = "USD"
              \/ (_norm_currency value = strip (upper (py_str value))
                  /\ String.length (strip (upper (py_str value))) <> 1%nat)).
  { unfold _norm_currency. destruct (negb (truthy value)); [left; reflexivity|].
    destruct (Nat.eqb_spec (String.length (strip (upper (py_str value)))) 1) as [E | E].
    - left. apply currency_symbol_default.
    - right. split; [reflexivity | exact E]. }
  destruct H as [-> | [-> E]].
  - repeat split; try reflexivity. cbn. lia.
  - repeat split.
    + exact E.
    + apply strip_idem.
    + apply upper_strip_upper.
    + intros Hne. apply strip_length_ne_1_fix; assumption.
Qed.

(** X6. A text made of white space only, which is not empty, is
    normalised to the empty code, not to the default USD. *)
Theorem norm_currency_blank (s : string) :
  s <> EmptyString -> all_chars isspace s = true ->
  _norm_currency (PyStr s) = EmptyString.
Proof.
  intros Hne Hsp. unfold _norm_currency. cbn [truthy py_str].
  apply String.eqb_neq in Hne. rewrite Hne. cbn [negb].
  rewrite (upper_all_space s Hsp). unfold strip. rewrite (lstrip_all_space s Hsp). reflexivity.
Qed.

Lemma norm_currency_blank_witness : _norm_currency (PyStr "   ") = EmptyString.
Proof. apply (norm_currency_blank "   "); [discriminate | reflexivity]. Defined.

(** ** Time normaliser *)

Lemma digit_val_inv (c : ascii) (x : Z) : digit_val c = Some x -> c = digit_char x.
Proof.
  destruct c as [[] [] [] [] [] [] [] []]; intros H; try discriminate H;
    injection H as <-; reflexivity.
Qed.

Lemma norm_time_keeps_all :
  forallb (fun x => forallb (fun y => forallb (fun z => forallb (fun w =>
    if (10 * Z.of_nat x + Z.of_nat y <? 24) && (10 * Z.of_nat z + Z.of_nat w <? 60)
    then norm_time_keeps (hhmm_text (Z.of_nat x) (Z.of_nat y) (Z.of_nat z) (Z.of_nat w))
    else true) (seq 0 10)) (seq 0 10)) (seq 0 10)) (seq 0 10) = true.
Proof. vm_compute. reflexivity. Qed.

(** A valid [HH:MM] is normalised to itself. *)
Lemma norm_time_valid_fix (t : string) :
  valid_hhmm t = true -> _norm_time (PyStr t) = Ok (Some t).
Proof.
  destruct t as [|a [|b [|c [|d [|e [|? ?]]]]]]; cbn [valid_hhmm]; try discriminate.
  destruct (digit_val a) as [x|] eqn:Ea; [|discriminate].
  destruct (digit_val b) as [y|] eqn:Eb; [|discriminate].
  destruct (digit_val d) as [z|] eqn:Ed; [|discriminate].
  destruct (digit_val e) as [w|] eqn:Ee; [|discriminate].
  intros H. apply andb_true_iff in H as [H Hm]. apply andb_true_iff in H as [Hc Hh].
  apply Ascii.eqb_eq in Hc. subst c.
  pose proof (digit_val_Some _ _ Ea) as [Rx _]. pose proof (digit_val_Some _ _ Eb) as [Ry _].
  pose proof (digit_val_Some _ _ Ed) as [Rz _]. pose proof (digit_val_Some _ _ Ee) as [Rw _].
  apply digit_val_inv in Ea, Eb, Ed, Ee. subst a b d e.
  pose proof norm_time_keeps_all as K.
  rewrite forallb_forall in K. specialize (K (Z.to_nat x)).
  rewrite forallb_forall in K. specialize (fun p => K p (Z.to_nat y)).
  rewrite forallb_forall in K. specialize (fun p q => K p q (Z.to_nat z)).
  rewrite forallb_forall in K. specialize (fun p q r => K p q r (Z.to_nat w)).
  rewrite !Z2Nat.id in K by lia. rewrite Hh, Hm in K. cbn [andb] in K.
  assert (K' : norm_time_keeps (hhmm_text x y z w) = true) by (apply K; apply in_seq; lia).
  unfold norm_time_keeps, hhmm_text in K'.
  destruct (_norm_time _) as [[r|]|]; try discriminate K'.
  apply String.eqb_eq in K'. subst r. reflexivity.
Qed.

(** X7. Whatever time the normaliser returns is a valid HH:MM, the
    hour in 0..23 and the minute in 0..59, and normalising that text
    again gives it back. *)
Theorem norm_time_result (value : pyval) (t : string) :
  _norm_time value = Ok (Some t) ->
  valid_hhmm t = true /\ _norm_time (PyStr t) = Ok (Some t).
Proof.
  intros H. pose proof (norm_time_result_valid value t H) as V.
  split; [exact V | apply norm_time_valid_fix, V].
Qed.

Lemma norm_time_result_witness :
  valid_hhmm "07:05" = true /\ _norm_time (PyStr "07:05") = Ok (Some "07:05").
Proof. apply (norm_time_result (PyStr " 31:65:10 ") "07:05"). reflexivity. Defined.

(** ** Date normaliser *)

Lemma new_datetime_date (y m d h mi s us : Z) (tz : option Z) (dt : datetime) :
  new_datetime y m d h mi s us tz = Ok dt ->
  dt_date dt = mkdate y m d /\ valid_date y m d = true.
Proof.
  unfold new_datetime, new_date. destruct (valid_date y m d); [|discriminate].
  cbn [bind]. destruct (_ && _); [|discriminate]. intros [= <-]. split; reflexivity.
Qed.

Lemma fromisoformat_valid (s : string) (dt : datetime) :
  fromisoformat s = Ok dt ->
  valid_date (year (dt_date dt)) (month (dt_date dt)) (day (dt_date dt)) = true.
Proof.
  unfold fromisoformat.
  destruct (parse_isoformat_date s) as [[[[y m] d] [|c t]]|]; try discriminate.
  - intros H. apply new_datetime_date in H as [-> H]. exact H.
  - destruct (parse_isoformat_time t) as [[[[[h mi] sec] us] tz]|]; [|discriminate].
    intros H. apply new_datetime_date in H as [-> H]. exact H.
Qed.

Lemma strptime_valid (s fmt : string) (dt : datetime) :
  strptime s fmt = Ok dt ->
  valid_date (year (dt_date dt)) (month (dt_date dt)) (day (dt_date dt)) = true.
Proof.
  unfold strptime. destruct (compile_format fmt) as [ds|]; [|discriminate].
  destruct (regex_match ds s []) as [[found [|? ?]]|]; try discriminate.
  destruct (group_int is_DirY 1900 found) as [y|]; [|discriminate]. cbn [bind].
  destruct (group_int is_DirM 1 found) as [m|]; [|discriminate]. cbn [bind].
  destruct (group_int is_DirD 1 found) as [d|]; [|discriminate]. cbn [bind].
  intros H. apply new_datetime_date in H as [-> H]. exact H.
Qed.

Lemma append_empty_r (s : string) : s +:+ EmptyString = s.
Proof.
  induction s as [|c s IH]; [reflexivity|].
  cbv [String.append] in *. fold String.append in *. rewrite IH. reflexivity.
Qed.

(** The ISO text of a valid date is read back as that date. *)
Lemma norm_date_isoformat (y m d : Z) :
  valid_date y m d = true ->
  _norm_date (PyStr (date_isoformat (mkdate y m d))) = Ok (Some (mkdate y m d)).
Proof.
  intros Hv. rewrite norm_date_eq. unfold iso_date, fromisoformat. cbn [py_str].
  rewrite <- (append_empty_r (date_isoformat (mkdate y m d))) at 2.
  rewrite (parse_isoformat_date_iso y m d _ Hv).
  unfold new_datetime, new_date. rewrite Hv. reflexivity.
Qed.

(** X8. A date the normaliser returns is a date of the calendar (year
    1 to 9999, month 1 to 12, a day the month has), and normalising its
    ISO text gives it back. *)
Theorem norm_date_result (value : pyval) (d : date) :
  _norm_date value = Ok (Some d) ->
  valid_date (year d) (month d) (day d) = true
  /\ _norm_date (PyStr (date_isoformat d)) = Ok (Some d).
Proof.
  intros H.
  assert (V : valid_date (year d) (month d) (day d) = true).
  { rewrite norm_date_eq in H. destruct (truthy value); [|discriminate].
    unfold iso_date in H. destruct (fromisoformat (py_str value)) as [dt|] eqn:E.
    - injection H as <-. exact (fromisoformat_valid _ _ E).
    - assert (H' : first_some (format_date (py_str value)) date_formats = Some d)
        by (injection H as H'; exact H').
      apply first_some_Some in H' as (pre & fmt & post & _ & _ & Hf).
      unfold format_date in Hf. destruct (strptime (py_str value) fmt) as [dt|] eqn:Es; [|discriminate].
      injection Hf as <-. exact (strptime_valid _ _ _ Es). }
  split; [exact V|]. destruct d as [y m dd]. apply norm_date_isoformat. exact V.
Qed.

Lemma norm_date_result_witness :
  valid_date 2024 3 5 = true
  /\ _norm_date (PyStr (date_isoformat (mkdate 2024 3 5))) = Ok (Some (mkdate 2024 3 5)).
Proof. apply (norm_date_result (PyStr "5/3/2024") (mkdate 2024 3 5)). reflexivity. Defined.

Lemma valid_hhmm_key_empty (t : string) :
  valid_hhmm t = true -> str_or (Some t) EmptyString = t.
Proof. destruct t; [discriminate | reflexivity]. Qed.

(** X9. The Date and Time cells that [to_row] writes are read back by
    the normalisers as the entry's own date and time, for an entry
    whose date is absent or a date of the calendar and whose time is
    absent or a valid HH:MM. *)
Theorem to_row_date_time_read_back (e : ExpenseEntry) :
  (forall d, transaction_date e = Some d ->
             valid_date (year d) (month d) (day d) = true) ->
  (forall t, transaction_time e = Some t -> valid_hhmm t = true) ->
  _norm_date (PyStr (Date (to_row e))) = Ok (transaction_date e)
  /\ _norm_time (PyStr (Time (to_row e))) = Ok (transaction_time e).
Proof.
  intros Hd Ht. unfold to_row. cbn [Date Time]. split.
  - destruct (transaction_date e) as [[y m d]|]; [|reflexivity].
    apply norm_date_isoformat. exact (Hd _ eq_refl).
  - destruct (transaction_time e) as [t|]; [|reflexivity].
    specialize (Ht t eq_refl). rewrite (valid_hhmm_key_empty t Ht).
    apply norm_time_valid_fix, Ht.
Qed.

Lemma to_row_date_time_read_back_witness :
  let e := entry_at (Some (mkdate 2024 2 29)) (Some "23:59") "r.png" in
  _norm_date (PyStr (Date (to_row e))) = Ok (Some (mkdate 2024 2 29))
  /\ _norm_time (PyStr (Time (to_row e))) = Ok (Some "23:59").
Proof.
  intros e. apply (to_row_date_time_read_back e).
  - intros d [= <-]. reflexivity.
  - intros t [= <-]. reflexivity.
Defined.

(** ** Dates written with slashes or dashes *)

Lemma range_cases_31 (a : Z) : 1 <= a <= 31 -> In a (map Z.of_nat (seq 1 31)).
Proof.
  intros H. apply in_map_iff. exists (Z.to_nat a). split; [lia | apply in_seq; lia].
Qed.

Ltac regex_case fmt' r :=
  match goal with
  | |- context [pad2 ?k] =>
      let p := fresh "p" in
      set (p := pad2 k) in *; vm_compute in p; subst p
  end;
  cbv [String.append]; cbn [regex_match first_some re_field re_seq]; cbv -[regex_match];
  try (destruct (regex_match fmt' r _); reflexivity); try reflexivity.

Ltac regex_cases H fmt' r :=
  apply range_cases_31 in H; cbn [seq map] in H;
  repeat (destruct H as [<- | H]; [ regex_case fmt' r | ]);
  try contradiction.

Section RegexFields.
Variable sep : ascii.
Hypothesis sep_cases : sep = "/"%char \/ sep = "-"%char.
Variable r : string.
Variable fmt' : list directive.
Variable found : list (directive * string).

(** A zero-padded day followed by the separator of the format: the
    match goes on after them, and backtracking adds nothing. *)
Lemma re_day (a : Z) :
  1 <= a <= 31 ->
  regex_match (DirD :: DirLit sep :: fmt') (pad2 a +:+ String sep r) found
  = regex_match fmt' r ((DirLit sep, String sep EmptyString) :: (DirD, pad2 a) :: found).
Proof.
  intros H. destruct sep_cases as [-> | ->]; regex_cases H fmt' r.
Qed.

Lemma re_month (b : Z) :
  1 <= b <= 12 ->
  regex_match (DirM :: DirLit sep :: fmt') (pad2 b +:+ String sep r) found
  = regex_match fmt' r ((DirLit sep, String sep EmptyString) :: (DirM, pad2 b) :: found).
Proof.
  intros H. assert (H' : 1 <= b <= 31) by lia.
  destruct sep_cases as [-> | ->]; regex_cases H' fmt' r; lia.
Qed.

(** No month is above 12. *)
Lemma re_month_high (b : Z) :
  13 <= b <= 31 ->
  regex_match (DirM :: DirLit sep :: fmt') (pad2 b +:+ String sep r) found = None.
Proof.
  intros H. assert (H' : 1 <= b <= 31) by lia.
  destruct sep_cases as [-> | ->]; regex_cases H' fmt' r; lia.
Qed.

(** A year takes four digits. *)
Lemma re_year_short (a : Z) :
  1 <= a <= 31 ->
  regex_match (DirY :: fmt') (pad2 a +:+ String sep r) found = None.
Proof.
  intros H. destruct sep_cases as [-> | ->]; regex_cases H fmt' r.
Qed.

End RegexFields.

(** The separator of the format is not that of the text. *)
Lemma re_other_separator (first : directive) (sep sep' : ascii) (a : Z) (r : string)
    (fmt' : list directive) (found : list (directive * string)) :
  first = DirD \/ first = DirM ->
  (sep = "/"%char /\ sep' = "-"%char) \/ (sep = "-"%char /\ sep' = "/"%char) ->
  1 <= a <= 31 ->
  regex_match (first :: DirLit sep' :: fmt') (pad2 a +:+ String sep r) found = None.
Proof.
  intros [-> | ->] [[-> ->] | [-> ->]] H; regex_cases H fmt' r.
Qed.

Lemma isdecimal_digit_char (k : Z) : 0 <= k <= 9 -> isdecimal (digit_char k) = true.
Proof.
  intros H. apply digit_cases in H.
  repeat (destruct H as [-> | H]; [reflexivity|]). subst. reflexivity.
Qed.

Lemma pad2_decimal (n : Z) : 0 <= n < 100 -> all_chars isdecimal (pad2 n) = true.
Proof.
  intros H. unfold pad2. cbn [all_chars].
  rewrite !isdecimal_digit_char by (Z.div_mod_to_equations; lia). reflexivity.
Qed.

Lemma re_year (y : Z) (found : list (directive * string)) :
  0 <= y < 10000 ->
  regex_match [DirY] (pad4 y) found = Some ((DirY, pad4 y) :: found, EmptyString).
Proof.
  intros H. unfold pad4, pad2. cbv [String.append].
  cbn [regex_match first_some re_field re_seq].
  rewrite !isdecimal_digit_char by (Z.div_mod_to_equations; lia). reflexivity.
Qed.

Lemma int_digits_two (c1 c2 : ascii) (x1 x2 acc : Z) (prev : bool) :
  digit_val c1 = Some x1 -> digit_val c2 = Some x2 ->
  int_digits (String c1 (String c2 EmptyString)) acc prev = Some (10 * (10 * acc + x1) + x2).
Proof.
  intros H1 H2. cbn [int_digits].
  assert (D1 : isdecimal c1 = true) by (unfold digit_val in H1; destruct (isdecimal c1); congruence).
  assert (D2 : isdecimal c2 = true) by (unfold digit_val in H2; destruct (isdecimal c2); congruence).
  rewrite (isdecimal_neq c1 "_" D1 eq_refl), H1, (isdecimal_neq c2 "_" D2 eq_refl), H2.
  reflexivity.
Qed.

(** [int] reads a zero-padded number back. *)
Lemma py_int_pad2 (n : Z) : 0 <= n < 100 -> py_int (pad2 n) = Ok n.
Proof.
  intros H. unfold py_int. rewrite (strip_num_decimal _ (pad2_decimal n H)).
  unfold pad2. rewrite take_sign_decimal by (apply isdecimal_digit_char; Z.div_mod_to_equations; lia).
  rewrite (int_digits_two _ _ (n / 10 mod 10) (n mod 10))
    by (apply digit_val_digit_char; Z.div_mod_to_equations; lia).
  cbn [count_digits]. rewrite !isdecimal_digit_char by (Z.div_mod_to_equations; lia).
  change (int_max_str_digits <? 1 + (1 + 0)) with false. cbv iota.
  f_equal. Z.div_mod_to_equations. lia.
Qed.

Lemma py_int_pad4 (y : Z) : 0 <= y < 10000 -> py_int (pad4 y) = Ok y.
Proof.
  intros H. unfold py_int.
  assert (D : all_chars isdecimal (pad4 y) = true).
  { unfold pad4. rewrite all_chars_app, !pad2_decimal by (Z.div_mod_to_equations; lia). reflexivity. }
  rewrite (strip_num_decimal _ D). unfold pad4, pad2. cbv [String.append].
  rewrite take_sign_decimal by (apply isdecimal_digit_char; Z.div_mod_to_equations; lia).
  cbn [int_digits].
  rewrite !(fun k H => isdecimal_neq (digit_char k) "_" (isdecimal_digit_char k H) eq_refl)
    by (Z.div_mod_to_equations; lia).
  rewrite !digit_val_digit_char by (Z.div_mod_to_equations; lia).
  cbn [count_digits]. rewrite !isdecimal_digit_char by (Z.div_mod_to_equations; lia).
  change (int_max_str_digits <? 1 + (1 + (1 + (1 + 0)))) with false. cbv iota.
  f_equal. Z.div_mod_to_equations. lia.
Qed.

(** The ISO parse refuses a text that starts with two digits and a
    slash or a dash. *)
Lemma iso_date_numeric_text (sep : ascii) (a b y : Z) :
  sep = "/"%char \/ sep = "-"%char -> 0 <= a < 100 ->
  iso_date (numeric_date_text sep a b y) = None.
Proof.
  intros Hs Ha. unfold iso_date, fromisoformat, parse_isoformat_date, four_digits, numeric_date_text.
  rewrite two_digits_pad2 by assumption.
  destruct Hs as [-> | ->]; reflexivity.
Qed.

Lemma date_formats_by_separator :
  date_formats = ["%Y-%m-%d"; dmy_format "/"; mdy_format "/"; dmy_format "-"; mdy_format "-"].
Proof. reflexivity. Qed.

Section NumericDates.
Variable sep : ascii.
Hypothesis sep_cases : sep = "/"%char \/ sep = "-"%char.
Variables a b y : Z.

Lemma compile_dmy :
  compile_format (dmy_format sep) = Some [DirD; DirLit sep; DirM; DirLit sep; DirY].
Proof. destruct sep_cases as [-> | ->]; reflexivity. Qed.

Lemma compile_mdy :
  compile_format (mdy_format sep) = Some [DirM; DirLit sep; DirD; DirLit sep; DirY].
Proof. destruct sep_cases as [-> | ->]; reflexivity. Qed.

Lemma format_ymd_none :
  1 <= a <= 31 -> format_date (numeric_date_text sep a b y) "%Y-%m-%d" = None.
Proof.
  intros Ha. unfold format_date, strptime.
  change (compile_format "%Y-%m-%d") with (Some [DirY; DirLit "-"; DirM; DirLit "-"; DirD]).
  unfold numeric_date_text. rewrite (re_year_short sep sep_cases) by assumption. reflexivity.
Qed.

(** Day first: the pattern reads the text as day [a], month [b]. *)
Lemma format_dmy :
  valid_date y b a = true ->
  format_date (numeric_date_text sep a b y) (dmy_format sep) = Some (mkdate y b a).
Proof.
  intros Hv. pose proof (valid_date_range _ _ _ Hv) as (Hy & Hb & Ha).
  unfold format_date, strptime. rewrite compile_dmy. unfold numeric_date_text.
  rewrite (re_day sep sep_cases) by assumption.
  rewrite (re_month sep sep_cases) by assumption.
  rewrite re_year by lia.
  cbn [group_int is_DirY is_DirM is_DirD].
  rewrite py_int_pad4 by lia. cbn [bind].
  rewrite !py_int_pad2 by lia. cbn [bind].
  unfold new_datetime, new_date. rewrite Hv. reflexivity.
Qed.

Lemma format_dmy_high :
  1 <= a <= 31 -> 13 <= b <= 31 ->
  format_date (numeric_date_text sep a b y) (dmy_format sep) = None.
Proof.
  intros Ha Hb. unfold format_date, strptime. rewrite compile_dmy. unfold numeric_date_text.
  rewrite (re_day sep sep_cases) by assumption.
  rewrite (re_month_high sep sep_cases) by assumption. reflexivity.
Qed.

(** Month first: the pattern reads the text as month [a], day [b]. *)
Lemma format_mdy :
  valid_date y a b = true ->
  format_date (numeric_date_text sep a b y) (mdy_format sep) = Some (mkdate y a b).
Proof.
  intros Hv. pose proof (valid_date_range _ _ _ Hv) as (Hy & Ha & Hb).
  unfold format_date, strptime. rewrite compile_mdy. unfold numeric_date_text.
  rewrite (re_month sep sep_cases) by assumption.
  rewrite (re_day sep sep_cases) by assumption.
  rewrite re_year by lia.
  cbn [group_int is_DirY is_DirM is_DirD].
  rewrite py_int_pad4 by lia. cbn [bind].
  rewrite !py_int_pad2 by lia. cbn [bind].
  unfold new_datetime, new_date. rewrite Hv. reflexivity.
Qed.

Lemma truthy_numeric_text : truthy (PyStr (numeric_date_text sep a b y)) = true.
Proof. reflexivity. Qed.

End NumericDates.

(** A dash text under the slash patterns. *)
Lemma format_slash_on_dash (a b y : Z) :
  1 <= a <= 31 ->
  format_date (numeric_date_text "-" a b y) (dmy_format "/") = None
  /\ format_date (numeric_date_text "-" a b y) (mdy_format "/") = None.
Proof.
  intros Ha. unfold format_date, strptime, numeric_date_text.
  change (compile_format (dmy_format "/")) with (Some [DirD; DirLit "/"; DirM; DirLit "/"; DirY]).
  change (compile_format (mdy_format "/")) with (Some [DirM; DirLit "/"; DirD; DirLit "/"; DirY]).
  cbv beta iota.
  rewrite (re_other_separator DirD "-" "/") by (auto; lia).
  rewrite (re_other_separator DirM "-" "/") by (auto; lia). split; reflexivity.
Qed.

(** X10. A text DD/MM/YYYY or DD-MM-YYYY (zero-padded) that is a date
    of the calendar when read day first is normalised to that date:
    the day-first pattern comes before the month-first one, so a text
    that both could read, as 05/03/2024, is never read month first. *)
Theorem norm_date_day_first (sep : ascii) (a b y : Z) :
  sep = "/"%char \/ sep = "-"%char ->
  valid_date y b a = true ->
  _norm_date (PyStr (numeric_date_text sep a b y)) = Ok (Some (mkdate y b a)).
Proof.
  intros Hs Hv. pose proof (valid_date_range _ _ _ Hv) as (Hy & Hb & Ha).
  rewrite norm_date_eq, truthy_numeric_text. cbn [py_str].
  rewrite (iso_date_numeric_text sep a b y Hs) by lia.
  rewrite date_formats_by_separator. cbn [first_some].
  rewrite (format_ymd_none sep Hs) by assumption.
  destruct Hs as [-> | ->].
  - rewrite (format_dmy "/") by auto. reflexivity.
  - destruct (format_slash_on_dash a b y Ha) as [-> ->].
    rewrite (format_dmy "-") by auto. reflexivity.
Qed.

Lemma norm_date_day_first_witness :
  _norm_date (PyStr "25-12-2023") = Ok (Some (mkdate 2023 12 25)).
Proof.
  apply (norm_date_day_first "-" 25 12 2023); [right; reflexivity | reflexivity].
Defined.

(** X11. Such a text is read month first, MM/DD/YYYY or MM-DD-YYYY,
    only when its second field cannot be a month: with the second
    field above 12 and the text a date of the calendar when read month
    first, the normaliser returns that date. *)
Theorem norm_date_month_first (sep : ascii) (a b y : Z) :
  sep = "/"%char \/ sep = "-"%char ->
  13 <= b ->
  valid_date y a b = true ->
  _norm_date (PyStr (numeric_date_text sep a b y)) = Ok (Some (mkdate y a b)).
Proof.
  intros Hs Hhigh Hv. pose proof (valid_date_range _ _ _ Hv) as (Hy & Ha & Hb).
  rewrite norm_date_eq, truthy_numeric_text. cbn [py_str].
  rewrite (iso_date_numeric_text sep a b y Hs) by lia.
  rewrite date_formats_by_separator. cbn [first_some].
  rewrite (format_ymd_none sep Hs) by lia.
  destruct Hs as [-> | ->].
  - rewrite (format_dmy_high "/") by (auto; lia).
    rewrite (format_mdy "/") by auto. reflexivity.
  - destruct (format_slash_on_dash a b y) as [-> ->]; [lia|].
    rewrite (format_dmy_high "-") by (auto; lia).
    rewrite (format_mdy "-") by auto. reflexivity.
Qed.

Lemma norm_date_month_first_witness :
  _norm_date (PyStr "03-15-2024") = Ok (Some (mkdate 2024 3 15)).
Proof.
  apply (norm_date_month_first "-" 3 15 2024); [right; reflexivity | lia | reflexivity].
Defined.

(** ** Extraction of one receipt *)

Lemma norm_float_ok (value : pyval) : exists r, _norm_float value = Ok r.
Proof.
  destruct value; cbn [_norm_float]; try (eexists; reflexivity);
    destruct (py_float _); eexists; reflexivity.
Qed.

(** X12. The normalisation of a receipt raises exactly when the time
    normaliser raises on the answer's time, with the same exception;
    otherwise it returns a record carrying the file name, each field
    being what its normaliser gives for the answer's value (absent
    for a missing key). When the extraction itself failed, the record
    has every field absent, the currency USD and the file name. *)
Theorem extract_expense_fields_outcome
    (answer : res (gmap string pyval)) (file_name : string) :
  let data := match answer with Ok d => d | Raise _ => ∅ end in
  (forall e, extract_expense_fields answer file_name = Raise e <->
             _norm_time (get data "transaction_time") = Raise e)
  /\ (forall t, _norm_time (get data "transaction_time") = Ok t ->
      exists d a,
        _norm_date (get data "transaction_date") = Ok d
        /\ _norm_float (get data "total_amount") = Ok a
        /\ extract_expense_fields answer file_name =
             Ok {| f_merchant_name := _norm_str (get data "merchant_name");
                   f_transaction_date := d;
                   f_transaction_time := t;
                   f_total_amount := a;
                   f_currency_code := _norm_currency (get data "currency_code");
                   f_payment_method := _norm_str (get data "payment_method");
                   f_category := _norm_str (get data "category");
                   f_source_name := file_name |})
  /\ (forall e, answer = Raise e ->
      extract_expense_fields answer file_name =
        Ok {| f_merchant_name := None; f_transaction_date := None;
              f_transaction_time := None; f_total_amount := None;
              f_currency_code := "USD"; f_payment_method := None;
              f_category := None; f_source_name := file_name |}).
Proof.
  intros data. unfold extract_expense_fields. fold data. unfold normalize_fields.
  split; [|split].
  - intros e. rewrite norm_date_eq. cbn [bind].
    destruct (_norm_time (get data "transaction_time")) as [t|e'] eqn:Et; cbn [bind].
    + destruct (norm_float_ok (get data "total_amount")) as [a ->]. cbn [bind].
      split; discriminate.
    + split; intros [= <-]; reflexivity.
  - intros t Et. rewrite norm_date_eq, Et. cbn [bind].
    destruct (norm_float_ok (get data "total_amount")) as [a Ea]. rewrite Ea. cbn [bind].
    eexists. exists a. repeat split.
  - intros e ->. reflexivity.
Qed.

(** ** The report *)

Lemma enumerate_nth_error {A : Type} (l : list A) (start : Z) (i : nat) (x : A) :
  nth_error l i = Some x ->
  nth_error (enumerate start l) i = Some (start + Z.of_nat i, x).
Proof.
  revert start i. induction l as [|y l IH]; intros start [|i]; cbn [nth_error enumerate];
    try discriminate.
  - intros [= ->]. do 2 f_equal. lia.
  - intros H. rewrite (IH (start + 1) i H). do 2 f_equal. lia.
Qed.

(** X13. Rows and receipt pages are numbered alike: the entry at
    position [i] of the table order has the row number [i + 1], whose
    link points to the anchor [rec<i+1>], and the receipt page at the
    same position carries that anchor and the name of the same entry. *)
Theorem table_links_match (entries : list ExpenseEntry) (i : nat) (e : ExpenseEntry) :
  nth_error (sorted_entries entries) i = Some e ->
  let n := str_of_Z (1 + Z.of_nat i) in
  nth_error (table_data entries) i = Some (expense_row (1 + Z.of_nat i) e)
  /\ t_link (expense_row (1 + Z.of_nat i) e)
     = "<link href='#rec" +:+ n +:+ "' color='blue'>"
       +:+ str_or (source_name e) "receipt" +:+ "</link>"
  /\ nth_error (receipt_headings entries) i
     = Some ("<a name='rec" +:+ n +:+ "'/>Receipt " +:+ n +:+ ": "
             +:+ str_or (source_name e) "").
Proof.
  intros H n. unfold table_data, receipt_headings.
  rewrite !nth_error_map, (enumerate_nth_error _ 1 i e H). repeat split.
Qed.

Lemma table_links_match_witness :
  let a := entry_at (Some (mkdate 2024 1 9)) None "a.png" in
  let b := entry_at (Some (mkdate 2024 1 5)) None "b.png" in
  nth_error (table_data [a; b]) 0 = Some (expense_row 1 b)
  /\ t_link (expense_row 1 b) = "<link href='#rec1' color='blue'>b.png</link>"
  /\ nth_error (receipt_headings [a; b]) 0 = Some "<a name='rec1'/>Receipt 1: b.png".
Proof.
  intros a b. apply (table_links_match [a; b] 0 b). reflexivity.
Defined.

Section DrawingFacts.
Variable Paragraph : string -> paragraph_style -> res unit.
Variable renders : string -> bool.
Hypothesis notice_parses : Paragraph "[Unable to render image]" BodyText = Ok tt.

Lemma paragraphs_ok (texts : list (string * paragraph_style)) :
  Forall (parses Paragraph) texts -> paragraphs Paragraph texts = Ok tt.
Proof.
  induction 1 as [|[text style] texts Ht _ IH]; [reflexivity|].
  cbn [paragraphs]. unfold parses in Ht. cbn [fst snd] in Ht. rewrite Ht. exact IH.
Qed.

Lemma paragraphs_raise (texts : list (string * paragraph_style)) (e : exn) :
  paragraphs Paragraph texts = Raise e ->
  exists text, In text texts /\ Paragraph (fst text) (snd text) = Raise e.
Proof.
  induction texts as [|[text style] texts IH]; cbn [paragraphs]; [discriminate|].
  destruct (Paragraph text style) as [u|e'] eqn:E; cbn [bind].
  - intros H. destruct (IH H) as (t & Hin & Ht). exists t. split; [right; exact Hin | exact Ht].
  - intros H. exists (text, style). split; [left; reflexivity | cbn [fst snd]; congruence].
Qed.

Lemma receipt_page_outcome (heading : string) (e : ExpenseEntry) :
  receipt_page Paragraph renders heading e = Paragraph heading Heading2.
Proof.
  unfold receipt_page. destruct (Paragraph heading Heading2) as [[]|e']; [|reflexivity].
  cbn [bind]. destruct (_image_bytes e) as [image|]; [|reflexivity].
  destruct (String.eqb image EmptyString); [reflexivity|].
  destruct (renders image); [reflexivity | exact notice_parses].
Qed.

Lemma receipt_pages_paragraphs (pages : list (string * ExpenseEntry)) :
  receipt_pages Paragraph renders pages
  = paragraphs Paragraph (map (fun page => (fst page, Heading2)) pages).
Proof.
  induction pages as [|[heading e] pages IH]; [reflexivity|].
  cbn [receipt_pages paragraphs map fst]. rewrite receipt_page_outcome, IH. reflexivity.
Qed.

End DrawingFacts.

Lemma map_fst_combine {A B : Type} (l1 : list A) (l2 : list B) :
  length l1 = length l2 -> map fst (combine l1 l2) = l1.
Proof.
  revert l2. induction l1 as [|x l1 IH]; intros [|y l2] H; try discriminate H; [reflexivity|].
  cbn [combine map fst]. rewrite IH; [reflexivity | injection H as H; exact H].
Qed.

Lemma table_data_length (entries : list ExpenseEntry) :
  length (table_data entries) = length entries.
Proof.
  unfold table_data. rewrite length_map, <- (length_map snd), enumerate_snd.
  apply Permutation_length, sorted_entries_perm.
Qed.

Lemma receipt_headings_length (entries : list ExpenseEntry) :
  length (receipt_headings entries) = length (sorted_entries entries).
Proof.
  unfold receipt_headings. rewrite length_map, <- (length_map snd), enumerate_snd. reflexivity.
Qed.

(** X14. Where the report can fail. Let the two fixed texts of the
    report, its title and the notice for a picture that cannot be
    shown, be markup the drawing library parses. Then, for every
    header, logo, list of entries and rate (zero, infinite and NaN
    included), the totals are computed without an exception; when the
    drawing library parses the texts of the entries (merchant, payment
    method, category, link and receipt heading of each), the report is
    what the drawing gives for the table of one row per entry, the
    aggregator's totals and one receipt page per entry; and an
    exception of the report is the parser's on one of those texts or
    the drawing's. *)
Theorem report_failures
    (Paragraph : string -> paragraph_style -> res unit) (renders : string -> bool)
    (doc_build : ReportHeader -> option string -> float -> list ExpenseEntry -> report
                 -> res string)
    (header : ReportHeader) (entries : list ExpenseEntry) (rate : float)
    (logo_path : option string) :
  Paragraph "<b>Expense Report</b>" Title = Ok tt ->
  Paragraph "[Unable to render image]" BodyText = Ok tt ->
  exists t,
    aggregate entries rate = Ok t
    /\ length (table_data entries) = length entries
    /\ length (receipt_headings entries) = length entries
    /\ (Forall (parses Paragraph) (entry_texts entries) ->
        build_pdf_report Paragraph renders doc_build header entries rate logo_path
        = doc_build header logo_path rate (sorted_entries entries)
            {| r_table := table_data entries; r_totals := t;
               r_receipts := receipt_headings entries |})
    /\ (forall e,
          build_pdf_report Paragraph renders doc_build header entries rate logo_path = Raise e ->
          (exists text, In text (entry_texts entries)
                        /\ Paragraph (fst text) (snd text) = Raise e)
          \/ doc_build header logo_path rate (sorted_entries entries)
               {| r_table := table_data entries; r_totals := t;
                  r_receipts := receipt_headings entries |} = Raise e).
Proof.
  intros Htitle Hnotice. eexists. split; [apply aggregate_rule|].
  split; [apply table_data_length|].
  split; [rewrite receipt_headings_length; apply Permutation_length, sorted_entries_perm|].
  assert (Hpages : receipt_pages Paragraph renders
                     (combine (receipt_headings entries) (sorted_entries entries))
                   = paragraphs Paragraph
                       (map (fun heading => (heading, Heading2)) (receipt_headings entries))).
  { rewrite (receipt_pages_paragraphs Paragraph renders Hnotice).
    rewrite <- (map_map fst (fun heading => (heading, Heading2))).
    rewrite map_fst_combine; [reflexivity | apply receipt_headings_length]. }
  unfold build_pdf_report. rewrite Htitle, Hpages, aggregate_rule. cbn [bind].
  split.
  - intros Hall. unfold entry_texts in Hall. apply Forall_app in Hall as [Hrows Hheads].
    rewrite (paragraphs_ok Paragraph _ Hrows). cbn [bind].
    rewrite (paragraphs_ok Paragraph _ Hheads). reflexivity.
  - intros e. unfold entry_texts.
    destruct (paragraphs Paragraph (concat _)) as [u|e1] eqn:E1; cbn [bind].
    + destruct (paragraphs Paragraph (map _ (receipt_headings entries))) as [u'|e2] eqn:E2;
        cbn [bind].
      * intros H. right. exact H.
      * intros [= ->]. left. destruct (paragraphs_raise Paragraph _ _ E2) as (t & Hin & Ht).
        exists t. split; [apply in_or_app; right; exact Hin | exact Ht].
    + intros [= ->]. left. destruct (paragraphs_raise Paragraph _ _ E1) as (t & Hin & Ht).
      exists t. split; [apply in_or_app; left; exact Hin | exact Ht].
Qed.

Lemma report_failures_witness :
  let parse := fun (_ : string) (_ : paragraph_style) => @Ok unit tt in
  let draw := fun (_ : ReportHeader) (_ : option string) (_ : float)
                  (_ : list ExpenseEntry) (_ : report) => @Ok string "%PDF" in
  build_pdf_report parse (fun _ => true) draw (header_with 18%float)
    [entry_with (Some 100%float) "USD"] 0%float None = Ok "%PDF".
Proof.
  intros parse draw.
  destruct (report_failures parse (fun _ => true) draw (header_with 18%float)
              [entry_with (Some 100%float) "USD"] 0%float None eq_refl eq_refl)
    as (t & _ & _ & _ & Hb & _).
  rewrite Hb; [reflexivity|]. apply List.Forall_forall. intros text _. reflexivity.
Defined.

(** ** Order of the table, again *)

Lemma sorted_by_of_sorted {A K : Type} (key : A -> K) (ltb : K -> K -> bool) (l : list A) :
  StronglySorted (key_le key ltb) l -> sorted_by key ltb l = l.
Proof.
  induction 1 as [|x l Hs IH Hx]; [reflexivity|].
  cbn [sorted_by]. rewrite IH. destruct l as [|y l]; [reflexivity|].
  cbn [insert_by]. inversion Hx as [|? ? Hy _]; subst.
  unfold key_le in Hy. rewrite Hy. reflexivity.
Qed.

(** X15. Entries given in table order stay as they are: sorting the
    table order again changes nothing, so a list that is already
    ascending in (date, time) keeps its order and its numbering. *)
Theorem sorted_entries_idempotent (entries : list ExpenseEntry) :
  sorted_entries (sorted_entries entries) = sorted_entries entries
  /\ (StronglySorted (key_le sort_key key_ltb) entries -> sorted_entries entries = entries).
Proof.
  split.
  - apply sorted_by_of_sorted, sorted_entries_sorted.
  - apply sorted_by_of_sorted.
Qed.

(** X16. The sort is stable: entries that have the same date key and
    the same time key (two entries with neither date nor time, say)
    come in the table in the order they were given. *)
Theorem table_order_stable (entries : list ExpenseEntry) (z : ExpenseEntry) :
  List.filter (fun e => date_eqb (fst (sort_key e)) (fst (sort_key z))
                        && String.eqb (snd (sort_key e)) (snd (sort_key z)))
    (sorted_entries entries)
  = List.filter (fun e => date_eqb (fst (sort_key e)) (fst (sort_key z))
                          && String.eqb (snd (sort_key e)) (snd (sort_key z)))
      entries.
Proof.
  assert (E : forall e,
    date_eqb (fst (sort_key e)) (fst (sort_key z)) && String.eqb (snd (sort_key e)) (snd (sort_key z))
    = same_key sort_key key_ltb z e).
  { intros e. unfold same_key.
    destruct (date_eqb _ _ && String.eqb _ _) eqn:B.
    - apply andb_true_iff in B as [B1 B2]. apply date_eqb_eq in B1. apply String.eqb_eq in B2.
      assert (K : sort_key e = sort_key z) by (destruct (sort_key e), (sort_key z); simpl in *; congruence).
      rewrite K. symmetry. apply andb_true_iff. split; apply negb_true_iff, key_ltb_nlt;
        intros [H | [_ H]]; [exact (date_lt_irrefl _ H) | exact (str_lt_irrefl _ H)
                            | exact (date_lt_irrefl _ H) | exact (str_lt_irrefl _ H)].
    - symmetry. apply not_true_iff_false. intros S. apply andb_true_iff in S as [S1 S2].
      apply negb_true_iff in S1, S2. apply key_ltb_nlt in S1, S2.
      pose proof (key_lt_total _ _ S1 S2) as K. rewrite K, date_eqb_refl, String.eqb_refl in B.
      discriminate. }
  rewrite (List.filter_ext _ _ E (sorted_entries entries)), (List.filter_ext _ _ E entries).
  apply sorted_entries_stable.
Qed.

(** ** The Totals sheet *)

Lemma py_float_raise (s : string) (e : exn) : py_float s = Raise e -> e = ValueError.
Proof.
  unfold py_float. destruct (drop_underscores s _); [|congruence].
  destruct (take_sign _) as [neg body].
  destruct (_ || _); [discriminate|]. destruct (String.eqb _ _); [discriminate|].
  destruct (parse_decimal body) as [[m ex]|]; [discriminate | congruence].
Qed.

Lemma cell_astype_float_readable (c : cell) :
  cell_unreadable c = false -> exists x, cell_astype_float (fillna0 c) = Ok x.
Proof.
  destruct c as [x | s |]; cbn [cell_unreadable fillna0 cell_astype_float].
  - intros _. destruct (is_nan x); eexists; reflexivity.
  - destruct (py_float s) as [x|e]; [eexists; reflexivity | discriminate].
  - eexists. reflexivity.
Qed.

Lemma cell_astype_float_unreadable (c : cell) :
  cell_unreadable c = true -> cell_astype_float (fillna0 c) = Raise ValueError.
Proof.
  destruct c as [x | s |]; cbn [cell_unreadable fillna0 cell_astype_float]; try discriminate.
  destruct (py_float s) as [x|e] eqn:E; [discriminate|].
  rewrite (py_float_raise s e E). reflexivity.
Qed.

(** The conversion of the selected Total cells: the ValueError of a
    text that is no number, or the numbers. *)
Lemma astype_float_selected (sel : row -> bool) (df : list row) :
  if existsb (fun r => sel r && cell_unreadable (Total r)) df
  then astype_float (map (fun r => fillna0 (Total r)) (List.filter sel df)) = Raise ValueError
  else exists xs, astype_float (map (fun r => fillna0 (Total r)) (List.filter sel df)) = Ok xs.
Proof.
  induction df as [|r df IH]; [eexists; reflexivity|].
  cbn [existsb List.filter]. destruct (sel r); cbn [andb orb map astype_float].
  - destruct (cell_unreadable (Total r)) eqn:E; cbn [orb].
    + rewrite (cell_astype_float_unreadable _ E). reflexivity.
    + destruct (cell_astype_float_readable _ E) as [x ->]. cbn [bind].
      destruct (existsb _ df).
      * rewrite IH. reflexivity.
      * destruct IH as [xs ->]. eexists. reflexivity.
  - exact IH.
Qed.

(** The subtotal of a frame whose Currency column the accessor takes. *)
Lemma frame_subtotal_accepted (code : string) (df : list row) :
  str_refused (map Currency df) = false ->
  frame_subtotal code df =
    bind (astype_float
            (map (fun r => fillna0 (Total r))
               (List.filter (fun r => cell_is (cell_upper (Currency r)) code) df)))
      (fun xs => Ok (series_sum xs)).
Proof.
  intros H. destruct df as [|r0 df0]; [reflexivity|].
  rewrite frame_subtotal_rows by discriminate. rewrite H. reflexivity.
Qed.

Lemma frame_subtotal_refused (code : string) (df : list row) :
  str_refused (map Currency df) = true -> frame_subtotal code df = Raise AttributeError.
Proof.
  intros H. destruct df as [|r0 df0]; [discriminate H|].
  rewrite frame_subtotal_rows by discriminate. rewrite H. reflexivity.
Qed.

Lemma frame_subtotal_outcome (code : string) (df : list row) :
  str_refused (map Currency df) = false ->
  if existsb (unreadable_in code) df
  then frame_subtotal code df = Raise ValueError
  else exists x, frame_subtotal code df = Ok x.
Proof.
  intros H. rewrite (frame_subtotal_accepted code df H).
  pose proof (astype_float_selected (fun r => cell_is (cell_upper (Currency r)) code) df) as Hs.
  cbv beta in Hs. unfold unreadable_in.
  destruct (existsb _ df).
  - rewrite Hs. reflexivity.
  - destruct Hs as [xs ->]. eexists. reflexivity.
Qed.

Lemma existsb_orb {A : Type} (f g : A -> bool) (l : list A) :
  existsb (fun x => f x || g x) l = existsb f l || existsb g l.
Proof.
  induction l as [|x l IH]; [reflexivity|]. cbn [existsb]. rewrite IH.
  destruct (f x), (g x), (existsb f l), (existsb g l); reflexivity.
Qed.

Lemma rate_or_one_truthy_always (x : float) : truthy_float (rate_or_one x) = true.
Proof. unfold rate_or_one. destruct (truthy_float x) eqn:E; [exact E | reflexivity]. Qed.

(** X17. What the Totals computation of the spreadsheet does on a
    frame, whatever the header: it raises an AttributeError when the
    Currency column holds numbers and no text; otherwise it raises a
    ValueError when some row of currency USD or MXN has a Total cell
    that is a text no float reads (the empty text of a blank amount,
    say); otherwise it gives its four values. It never divides by
    zero. *)
Theorem totals_sheet_errors (df : list row) (header : ReportHeader) :
  (str_refused (map Currency df) = true ->
     totals_sheet df header = Raise AttributeError)
  /\ (str_refused (map Currency df) = false ->
      existsb unreadable_total df = true ->
      totals_sheet df header = Raise ValueError)
  /\ (str_refused (map Currency df) = false ->
      existsb unreadable_total df = false ->
      exists t, totals_sheet df header = Ok t)
  /\ totals_sheet df header <> Raise ZeroDivisionError.
Proof.
  assert (H1 : str_refused (map Currency df) = true ->
               totals_sheet df header = Raise AttributeError).
  { intros H. unfold totals_sheet. rewrite (frame_subtotal_refused "USD" df H). reflexivity. }
  assert (H2 : str_refused (map Currency df) = false ->
               if existsb unreadable_total df
               then totals_sheet df header = Raise ValueError
               else exists t, totals_sheet df header = Ok t).
  { intros H. unfold unreadable_total. rewrite existsb_orb.
    pose proof (frame_subtotal_outcome "USD" df H) as Hu.
    pose proof (frame_subtotal_outcome "MXN" df H) as Hm.
    unfold totals_sheet.
    destruct (existsb (unreadable_in "USD") df); cbn [orb].
    - rewrite Hu. reflexivity.
    - destruct Hu as [u ->]. cbn [bind].
      destruct (existsb (unreadable_in "MXN") df).
      + rewrite Hm. reflexivity.
      + destruct Hm as [m ->]. cbn [bind].
        rewrite py_div_truthy by apply rate_or_one_truthy_always. eexists. reflexivity. }
  split; [exact H1|]. split; [|split].
  - intros H Hb. specialize (H2 H). rewrite Hb in H2. exact H2.
  - intros H Hb. specialize (H2 H). rewrite Hb in H2. exact H2.
  - destruct (str_refused (map Currency df)) eqn:H.
    + rewrite (H1 eq_refl). discriminate.
    + specialize (H2 eq_refl). destruct (existsb unreadable_total df).
      * rewrite H2. discriminate.
      * destruct H2 as [t ->]. discriminate.
Qed.

(** X18. For a header whose rate meets the constraint of the header
    class (at least 0.0001), the rate is not zero, the zero guard of
    the Totals sheet leaves it as it is, and the sheet's totals are
    total-USD = subtotal-USD + subtotal-MXN / rate and
    total-MXN = subtotal-MXN + subtotal-USD * rate. *)
Theorem valid_header_rate (header : ReportHeader) :
  fx_valid header = true ->
  truthy_float (fx_usd_to_mxn header) = true
  /\ rate_or_one (fx_usd_to_mxn header) = fx_usd_to_mxn header
  /\ (forall df u m,
        frame_subtotal "USD" df = Ok u -> frame_subtotal "MXN" df = Ok m ->
        totals_sheet df header =
          Ok {| usd_sub := u; mxn_sub := m;
                total_usd := (u + m / fx_usd_to_mxn header)%float;
                total_mxn := (m + u * fx_usd_to_mxn header)%float |}).
Proof.
  intros Hv. pose proof (fx_valid_truthy header Hv) as Ht.
  split; [exact Ht|]. split; [apply rate_or_one_truthy, Ht|].
  intros df u m Hu Hm.
  rewrite (totals_sheet_rule df header u m Hu Hm), (rate_or_one_truthy _ Ht). reflexivity.
Qed.

Lemma valid_header_rate_witness :
  truthy_float 18%float = true /\ rate_or_one 18%float = 18%float.
Proof.
  destruct (valid_header_rate (header_with 18%float)) as (H1 & H2 & _); [reflexivity|].
  split; [exact H1 | exact H2].
Defined.

(** ** Thousands separators *)

Lemma remove_char_app (c : ascii) (a b : string) :
  remove_char c (a +:+ b) = remove_char c a +:+ remove_char c b.
Proof.
  induction a as [|x a IH]; [reflexivity|].
  cbv [String.append]; fold String.append. cbn [remove_char].
  destruct (Ascii.eqb x c); [exact IH|].
  cbv [String.append]; fold String.append. rewrite IH. reflexivity.
Qed.

(** X19. The amount normaliser ignores commas wherever they stand:
    a text with a comma put in at any place normalises to the same
    result as the text without it. *)
Theorem norm_float_ignores_commas (a b : string) :
  _norm_float (PyStr (a +:+ String "," b)) = _norm_float (PyStr (a +:+ b)).
Proof.
  cbn [_norm_float py_str].
  rewrite !remove_char_app. cbn [remove_char]. rewrite Ascii.eqb_refl. reflexivity.
Qed.
